(** * Feed ingestion of ProductManagementService, embedded in Rocq.

    Embedded sources:
    - [products/utils.py]: [get_text], [get_float_text], [get_attribute];
    - [products/core.py]: [handle_uploaded_file], [create_product_instance],
      [notify_admins_for_products], [notify_failure_to_admins];
    - [products/models.py]: the [Product] model and its NOT NULL columns;
    - [products/views.py]: [signup], [login], [logout], [upload_products],
      [list_products], [product_detail], [filter_options];
    - [products/serializers.py]: [UserSerializer.validate] and [create],
      [ProductFilterSerializer];
    - [products/enums.py]: [ProductPagination];
    - [products/tasks/product.py]: [send_notification]. *)

From Stdlib Require Import String Ascii ZArith QArith List Bool.
From stdpp Require Import base gmap strings list.
Import ListNotations.
Open Scope string_scope.

(** ** Python exceptions raised on the paths we model. *)
Inductive PyExc :=
| ValueError        (* float() / int() on a non-numeric string *)
| IndexError        (* [split()[0]] on a string without tokens *)
| IntegrityError    (* a database constraint refused the INSERT *)
| DataError         (* a column cannot hold the value given to it *)
| InvalidOperation  (* [Decimal.quantize] with too many digits *)
| ET_ParseError     (* ElementTree could not parse the document *)
| BrokerError.      (* the task broker refused [send_notification.send] *)

(** A computation that returns a value or raises. *)
Inductive res (A : Type) :=
| Ok (a : A)
| Raise (e : PyExc).
Arguments Ok {A} a.
Arguments Raise {A} e.

Definition bind {A B} (m : res A) (k : A -> res B) : res B :=
  match m with Ok a => k a | Raise e => Raise e end.
Notation "'let*' x ':=' m 'in' k" := (bind m (fun x => k))
  (at level 200, x name, m at level 100, k at level 200).

(** ** ElementTree elements: tag (namespaces already resolved to
    [{uri}local]), [text] ([None] when the element has no text),
    [attrib] (a dict, as an association list) and the children in document
    order. *)
Inductive element :=
| Elem (tag : string) (text : option string)
       (attrib : list (string * string)) (children : list element).

Definition el_tag (e : element) : string := let 'Elem t _ _ _ := e in t.
Definition el_text (e : element) : option string := let 'Elem _ x _ _ := e in x.
Definition el_attrib (e : element) : list (string * string) :=
  let 'Elem _ _ a _ := e in a.
Definition el_children (e : element) : list element :=
  let 'Elem _ _ _ c := e in c.

(** [dict.get(k, default)] on the attribute dict. *)
Fixpoint attrib_get (a : list (string * string)) (k : string) (default : option string)
  : option string :=
  match a with
  | [] => default
  | (k', v) :: a' => if String.eqb k k' then Some v else attrib_get a' k default
  end.

(** [namespace = {"g": "http://base.google.com/ns/1.0"}]: the tag [g:x]. *)
Definition g (local : string) : string := "{http://base.google.com/ns/1.0}" ++ local.

(** [item.find(tag)]: the first child with that tag. *)
Definition find (e : element) (t : string) : option element :=
  List.find (fun c => String.eqb (el_tag c) t) (el_children e).

(** [item.find("appLink[@property='v']")]: the first [appLink] child whose
    [property] attribute is [v]. *)
Definition find_applink (e : element) (v : string) : option element :=
  List.find (fun c => String.eqb (el_tag c) "appLink" &&
                      match attrib_get (el_attrib c) "property" None with
                      | Some v' => String.eqb v' v
                      | None => false
                      end) (el_children e).

(** [root.findall("./channel/item")]: every [item] child of every
    [channel] child of the root, in document order. *)
Definition findall_channel_item (root : element) : list element :=
  flat_map (fun ch => filter (fun c => String.eqb (el_tag c) "item") (el_children ch))
           (filter (fun c => String.eqb (el_tag c) "channel") (el_children root)).

(** ** The Python runtime the code calls into.
    [float(s)] and [int(s)] are Python built-ins and [ET.parse] is the
    standard library's parser: they are parameters of the development.
    [py_float s = None] (resp. [py_int s = None]) means the call raises
    [ValueError]; [et_parse f = None] means [ET.parse] raises. *)
Class PyRuntime := {
  pyfloat : Type;
  py_float : string -> option pyfloat;
  py_int : string -> option Z;
  xml_file : Type;
  et_parse : xml_file -> option element;
  (** [int("0") == 0] *)
  py_int_zero : py_int "0" = Some 0%Z;
  (** Saving a [DecimalField(max_digits, decimal_places)] value:
      [false] when the value is not finite or, rounded to [decimal_places]
      places, needs more than [max_digits] digits; the save then raises. *)
  db_decimal_ok : Z -> Z -> pyfloat -> bool;
  (** Saving an [IntegerField] value: [false] out of the column's range. *)
  db_int_ok : Z -> bool;
  (** Saving a [CharField(max_length=n)] value: [false] when the backend
      enforces the length and the value is longer. *)
  db_varchar_ok : Z -> string -> bool;
  (** DRF's [DecimalField(max_digits, decimal_places).to_representation]:
      [false] when its [quantize] raises [InvalidOperation]. *)
  drf_decimal_ok : Z -> Z -> pyfloat -> bool
}.

(** ** Strings. *)

(** [str.isspace()] on one ASCII character: 9-13, 28-31 and 32. *)
Definition is_py_space (c : ascii) : bool :=
  let n := nat_of_ascii c in
  (Nat.leb 9 n && Nat.leb n 13) || (Nat.leb 28 n && Nat.leb n 32).

(** [s.split()]: the maximal runs of non-whitespace characters. [cur] is
    the token being read, reversed. *)
Fixpoint split_aux (s : string) (cur : list ascii) : list string :=
  match s with
  | EmptyString =>
      match cur with [] => [] | _ => [string_of_list_ascii (rev cur)] end
  | String c s' =>
      if is_py_space c then
        match cur with
        | [] => split_aux s' []
        | _ => string_of_list_ascii (rev cur) :: split_aux s' []
        end
      else split_aux s' (c :: cur)
  end.
Definition py_split (s : string) : list string := split_aux s [].

(** [s.lower()] on ASCII. *)
Definition lower_char (c : ascii) : ascii :=
  let n := nat_of_ascii c in
  if Nat.leb 65 n && Nat.leb n 90 then ascii_of_nat (n + 32) else c.
Fixpoint py_lower (s : string) : string :=
  match s with
  | EmptyString => EmptyString
  | String c s' => String (lower_char c) (py_lower s')
  end.

(** Python truthiness of an [Optional[str]]: [None] and [""] are false. *)
Definition truthy (s : option string) : bool :=
  match s with Some x => negb (String.eqb x "") | None => false end.

Section Utils.
Context `{PyRuntime}.

(** utils.py, [get_text]:
    [element.text if element is not None and element.text is not None else default] *)
Definition get_text (element : option element) (default : option string) : option string :=
  match element with
  | Some e => match el_text e with Some t => Some t | None => default end
  | None => default
  end.

(** utils.py, [get_float_text]:
    [float(element.text.split()[0]) if element is not None and element.text else default] *)
Definition get_float_text (element : option element) (default : option pyfloat)
  : res (option pyfloat) :=
  match element with
  | Some e =>
      match el_text e with
      | Some t =>
          if truthy (Some t) then
            match py_split t with
            | tok :: _ =>
                match py_float tok with
                | Some f => Ok (Some f)
                | None => Raise ValueError
                end
            | [] => Raise IndexError
            end
          else Ok default
      | None => Ok default
      end
  | None => Ok default
  end.

(** utils.py, [get_attribute]:
    [element.attrib.get(attribute, default) if element is not None else default] *)
Definition get_attribute (element : option element) (attribute : string)
  (default : option string) : option string :=
  match element with
  | Some e => attrib_get (el_attrib e) attribute default
  | None => default
  end.

End Utils.

(** ** models.py: the [Product] model.
    [DecimalField]s hold the value [float(...)] produced; [id] is renamed
    [product_id] (Rocq's [id] is the identity function). *)
Section Model.
Context `{PyRuntime}.

Record Product := mkProduct {
  product_id : option string;
  title : option string;
  product_type : option string;
  link : option string;
  description : option string;
  image_link : option string;
  price : option pyfloat;
  sale_price : option pyfloat;
  old_price : option pyfloat;
  final_price : option pyfloat;
  discount_percent : option string;
  availability : option string;
  google_product_category : option string;
  brand : option string;
  gtin : option string;
  item_group_id : option string;
  condition : option string;
  age_group : option string;
  color : option string;
  gender : option string;
  gender_orig_value : option string;
  quantity : Z;
  adult : bool;
  adwords_labels : option string;
  additional_images_count : Z;
  ios_url : option string;
  ios_app_store_id : option string;
  ios_app_name : option string;
  iphone_app_name : option string;
  iphone_app_store_id : option string;
  iphone_url : option string;
  android_package : option string;
  android_app_name : option string;
  options_percentage : option pyfloat;
  icon_media_url : option string;
  all_sizes_skus : option string;
  sizes_of_all_skus : option string;
  product_season : option string;
  product_class : option string;
  custom_label_0 : option string;
  custom_label_1 : option string;
  custom_label_2 : option string;
  custom_label_3 : option string;
  custom_label_4 : option string
}.

(** The product table, keyed by primary key, is a [gmap string Product]. *)

(** [Product.objects.filter(id=pid).exists()] *)
Definition exists_id (cat : gmap string Product) (pid : string) : bool :=
  bool_decide (is_Some (cat !! pid)).

Definition is_Some_b {A} (o : option A) : bool :=
  match o with Some _ => true | None => false end.

(** The columns declared without [null=True]: the INSERT fails when one of
    them is NULL. *)
Definition not_null_ok (p : Product) : bool :=
  is_Some_b (product_id p) && is_Some_b (title p) && is_Some_b (product_type p)
  && is_Some_b (link p) && is_Some_b (description p) && is_Some_b (image_link p)
  && is_Some_b (price p) && is_Some_b (availability p) && is_Some_b (brand p)
  && is_Some_b (gtin p) && is_Some_b (item_group_id p) && is_Some_b (condition p)
  && is_Some_b (age_group p) && is_Some_b (color p) && is_Some_b (gender p).

(** [x is None or check(x)]: a NULL value passes the column checks. *)
Definition opt_ok {A} (check : A -> bool) (x : option A) : bool :=
  match x with Some a => check a | None => true end.

(** The values the backend accepts for the row: the [DecimalField]s with
    their [max_digits] and [decimal_places], the [IntegerField]s, and the
    [max_length] of every [CharField] and [URLField] (models.py). *)
Definition db_values_ok (p : Product) : bool :=
  opt_ok (db_decimal_ok 10 2) (price p) && opt_ok (db_decimal_ok 10 2) (sale_price p)
  && opt_ok (db_decimal_ok 10 2) (old_price p) && opt_ok (db_decimal_ok 10 2) (final_price p)
  && opt_ok (db_decimal_ok 5 2) (options_percentage p)
  && db_int_ok (quantity p) && db_int_ok (additional_images_count p)
  && opt_ok (db_varchar_ok 50) (product_id p)
  && opt_ok (db_varchar_ok 255) (title p)
  && opt_ok (db_varchar_ok 255) (product_type p)
  && opt_ok (db_varchar_ok 500) (link p)
  && opt_ok (db_varchar_ok 500) (image_link p)
  && opt_ok (db_varchar_ok 50) (discount_percent p)
  && opt_ok (db_varchar_ok 50) (availability p)
  && opt_ok (db_varchar_ok 100) (google_product_category p)
  && opt_ok (db_varchar_ok 100) (brand p)
  && opt_ok (db_varchar_ok 100) (gtin p)
  && opt_ok (db_varchar_ok 50) (item_group_id p)
  && opt_ok (db_varchar_ok 50) (condition p)
  && opt_ok (db_varchar_ok 50) (age_group p)
  && opt_ok (db_varchar_ok 50) (color p)
  && opt_ok (db_varchar_ok 50) (gender p)
  && opt_ok (db_varchar_ok 50) (gender_orig_value p)
  && opt_ok (db_varchar_ok 255) (adwords_labels p)
  && opt_ok (db_varchar_ok 500) (ios_url p)
  && opt_ok (db_varchar_ok 100) (ios_app_store_id p)
  && opt_ok (db_varchar_ok 100) (ios_app_name p)
  && opt_ok (db_varchar_ok 100) (iphone_app_name p)
  && opt_ok (db_varchar_ok 100) (iphone_app_store_id p)
  && opt_ok (db_varchar_ok 500) (iphone_url p)
  && opt_ok (db_varchar_ok 100) (android_package p)
  && opt_ok (db_varchar_ok 100) (android_app_name p)
  && opt_ok (db_varchar_ok 500) (icon_media_url p)
  && opt_ok (db_varchar_ok 255) (all_sizes_skus p)
  && opt_ok (db_varchar_ok 255) (sizes_of_all_skus p)
  && opt_ok (db_varchar_ok 100) (product_season p)
  && opt_ok (db_varchar_ok 100) (product_class p)
  && opt_ok (db_varchar_ok 255) (custom_label_0 p)
  && opt_ok (db_varchar_ok 255) (custom_label_1 p)
  && opt_ok (db_varchar_ok 255) (custom_label_2 p)
  && opt_ok (db_varchar_ok 255) (custom_label_3 p)
  && opt_ok (db_varchar_ok 255) (custom_label_4 p).

(** The instance with its primary key set. *)
Definition with_pk (p : Product) (pk : string) : Product :=
  {| product_id := Some pk; title := title p; product_type := product_type p;
     link := link p; description := description p; image_link := image_link p;
     price := price p; sale_price := sale_price p; old_price := old_price p;
     final_price := final_price p; discount_percent := discount_percent p;
     availability := availability p;
     google_product_category := google_product_category p; brand := brand p;
     gtin := gtin p; item_group_id := item_group_id p; condition := condition p;
     age_group := age_group p; color := color p; gender := gender p;
     gender_orig_value := gender_orig_value p; quantity := quantity p; adult := adult p;
     adwords_labels := adwords_labels p;
     additional_images_count := additional_images_count p; ios_url := ios_url p;
     ios_app_store_id := ios_app_store_id p; ios_app_name := ios_app_name p;
     android_package := android_package p; android_app_name := android_app_name p;
     options_percentage := options_percentage p; icon_media_url := icon_media_url p;
     all_sizes_skus := all_sizes_skus p; sizes_of_all_skus := sizes_of_all_skus p;
     product_season := product_season p; product_class := product_class p;
     custom_label_0 := custom_label_0 p; custom_label_1 := custom_label_1 p;
     custom_label_2 := custom_label_2 p; custom_label_3 := custom_label_3 p;
     custom_label_4 := custom_label_4 p; iphone_app_name := iphone_app_name p;
     iphone_app_store_id := iphone_app_store_id p; iphone_url := iphone_url p |}.

(** [Model._save_table]: a primary key left [None] takes the field's
    default, [""] for a [CharField] without [default]
    ([Field.get_pk_value_on_save]), and the instance keeps it. *)
Definition pk_value (x : option string) : string :=
  match x with Some s => s | None => "" end.

(** [Product.objects.create(...)]: an INSERT of the instance with its
    primary key. A value a column cannot hold raises; a NULL in a NOT NULL
    column or a primary key already taken raises [IntegrityError]. The
    table changes only when the INSERT succeeds. *)
Definition objects_create (p : Product) (cat : gmap string Product) : res (Product * (gmap string Product)) :=
  let pk := pk_value (product_id p) in
  let p := with_pk p pk in
  if negb (db_values_ok p) then Raise DataError
  else if not_null_ok p then
    if exists_id cat pk then Raise IntegrityError
    else Ok (p, <[pk := p]> cat)
  else Raise IntegrityError.

(** [int(s)] *)
Definition py_int_call (s : string) : res Z :=
  match py_int s with Some z => Ok z | None => Raise ValueError end.

(** [x or "0"] on an [Optional[str]]. *)
Definition or_zero (x : option string) : string :=
  match x with Some s => if truthy (Some s) then s else "0" | None => "0" end.

(** core.py, [create_product_instance], lines 74-116: the fields are read
    in the order of the source; the first one that raises aborts the call. *)
Definition build_product (item : element) : res Product :=
  let product_id := get_text (find item (g "id")) None in
  let title := get_text (find item "title") None in
  let product_type := get_text (find item (g "product_type")) None in
  let link := get_text (find item "link") None in
  let description := get_text (find item "description") None in
  let image_link := get_text (find item (g "image_link")) None in
  let* price := get_float_text (find item (g "price")) None in
  let* sale_price := get_float_text (find item (g "sale_price")) None in
  let* old_price := get_float_text (find item (g "oldprice")) None in
  let* final_price := get_float_text (find item (g "finalprice")) None in
  let discount_percent := get_text (find item (g "discount_percent")) None in
  let availability := get_text (find item (g "availability")) None in
  let google_product_category := get_text (find item (g "google_product_category")) None in
  let brand := get_text (find item (g "brand")) None in
  let gtin := get_text (find item (g "gtin")) None in
  let item_group_id := get_text (find item (g "item_group_id")) None in
  let condition := get_text (find item (g "condition")) None in
  let age_group := get_text (find item (g "age_group")) None in
  let color := get_text (find item (g "color")) None in
  let gender := get_text (find item (g "gender")) None in
  let* quantity := py_int_call (or_zero (get_text (find item (g "quantity")) (Some "0"))) in
  let adult_str := get_text (find item (g "adult")) (Some "no") in
  let adult := match adult_str with
               | Some s => if truthy (Some s) then String.eqb (py_lower s) "yes" else false
               | None => false
               end in
  let adwords_labels := get_text (find item (g "adwords_labels")) None in
  let* additional_images_count :=
    py_int_call (or_zero (get_text (find item "additional_images_count") (Some "0"))) in
  let ios_url := get_text (find item (g "ios_url")) None in
  let ios_app_store_id := get_text (find item (g "ios_app_store_id")) None in
  let ios_app_name := get_text (find item (g "ios_app_name")) None in
  let iphone_app_name := get_attribute (find_applink item "iphone_app_name") "content" None in
  let iphone_app_store_id := get_attribute (find_applink item "iphone_app_store_id") "content" None in
  let iphone_url := get_attribute (find_applink item "iphone_url") "content" None in
  let android_package := get_text (find item (g "android_package")) None in
  let android_app_name := get_text (find item (g "android_app_name")) None in
  let* options_percentage := get_float_text (find item "options_percentage") None in
  let icon_media_url := get_text (find item "icon_media_url") None in
  let all_sizes_skus := get_text (find item "all_sizes_skus") None in
  let sizes_of_all_skus := get_text (find item "sizes_of_all_skus") None in
  let product_season := get_text (find item "product_season") None in
  let product_class := get_text (find item "product_class") None in
  let gender_orig_value := get_text (find item (g "gender_orig_value")) None in
  let custom_labels := map (fun i => get_text (find item (g ("custom_label_" ++ i))) None)
                           ["0"; "1"; "2"; "3"; "4"] in
  Ok
    {| product_id := product_id; title := title; product_type := product_type;
       link := link; description := description; image_link := image_link;
       price := price; sale_price := sale_price; old_price := old_price;
       final_price := final_price; discount_percent := discount_percent;
       availability := availability; google_product_category := google_product_category;
       brand := brand; gtin := gtin; item_group_id := item_group_id;
       condition := condition; age_group := age_group; color := color;
       gender := gender; gender_orig_value := gender_orig_value;
       quantity := quantity; adult := adult; adwords_labels := adwords_labels;
       additional_images_count := additional_images_count; ios_url := ios_url;
       ios_app_store_id := ios_app_store_id; ios_app_name := ios_app_name;
       android_package := android_package; android_app_name := android_app_name;
       options_percentage := options_percentage; icon_media_url := icon_media_url;
       all_sizes_skus := all_sizes_skus; sizes_of_all_skus := sizes_of_all_skus;
       product_season := product_season; product_class := product_class;
       custom_label_0 := nth 0 custom_labels None; custom_label_1 := nth 1 custom_labels None;
       custom_label_2 := nth 2 custom_labels None; custom_label_3 := nth 3 custom_labels None;
       custom_label_4 := nth 4 custom_labels None;
       iphone_app_name := iphone_app_name; iphone_app_store_id := iphone_app_store_id;
       iphone_url := iphone_url |}.

(** core.py, [create_product_instance]: the fields, then
    [Product.objects.create(...)] (lines 118-163). *)
Definition create_product_instance (item : element) (cat : gmap string Product)
  : res (Product * (gmap string Product)) :=
  let* p := build_product item in
  objects_create p cat.

(** [ProductSerializer(instance).data]: all the model's fields. Each
    [DecimalField] value is quantized with the model's [max_digits] and
    [decimal_places], which raises [InvalidOperation] when it does not fit;
    the other fields are copied. *)
Definition representable (p : Product) : bool :=
  opt_ok (drf_decimal_ok 10 2) (price p) && opt_ok (drf_decimal_ok 10 2) (sale_price p)
  && opt_ok (drf_decimal_ok 10 2) (old_price p) && opt_ok (drf_decimal_ok 10 2) (final_price p)
  && opt_ok (drf_decimal_ok 5 2) (options_percentage p).

Definition serialize (p : Product) : res Product :=
  if representable p then Ok p else Raise InvalidOperation.

(** The loop state of [handle_uploaded_file]: its three lists and the
    product table. *)
Record Batch := mkBatch {
  existing_product_ids : list string;
  problematic_product_ids : list string;
  product_instances_list : list Product;
  db : gmap string Product
}.

(** One iteration of [for item in root.findall("./channel/item")]. The
    [try] block creates the row, then serializes it: when serializing
    raises, the row stays in the table (no transaction) and the [except]
    branch runs. *)
Definition process_item (st : Batch) (item : element) : Batch :=
  let product_id := get_text (find item (g "id")) None in
  match product_id with
  | Some pid =>
      if truthy product_id && exists_id (db st) pid then
        mkBatch (existing_product_ids st ++ [pid]) (problematic_product_ids st)
                (product_instances_list st) (db st)
      else
        match create_product_instance item (db st) with
        | Ok (p, cat') =>
            match serialize p with
            | Ok serialized_product =>
                mkBatch (existing_product_ids st) (problematic_product_ids st)
                        (product_instances_list st ++ [serialized_product]) cat'
            | Raise _ =>
                if truthy product_id then
                  mkBatch (existing_product_ids st) (problematic_product_ids st ++ [pid])
                          (product_instances_list st) cat'
                else
                  mkBatch (existing_product_ids st) (problematic_product_ids st)
                          (product_instances_list st) cat'
            end
        | Raise _ =>
            if truthy product_id then
              mkBatch (existing_product_ids st) (problematic_product_ids st ++ [pid])
                      (product_instances_list st) (db st)
            else st
        end
  | None =>
      match create_product_instance item (db st) with
      | Ok (p, cat') =>
          match serialize p with
          | Ok serialized_product =>
              mkBatch (existing_product_ids st) (problematic_product_ids st)
                      (product_instances_list st ++ [serialized_product]) cat'
          | Raise _ =>
              mkBatch (existing_product_ids st) (problematic_product_ids st)
                      (product_instances_list st) cat'
          end
      | Raise _ => st
      end
  end.

(** core.py, [handle_uploaded_file]: [ET.parse] failing is re-raised;
    otherwise the items are processed in document order. The result is the
    three returned lists and the product table afterwards. *)
Definition handle_uploaded_file (file : xml_file) (cat : gmap string Product)
  : res (list string * list string * list Product * (gmap string Product)) :=
  match et_parse file with
  | None => Raise ET_ParseError
  | Some root =>
      let st := fold_left process_item (findall_channel_item root) (mkBatch [] [] [] cat) in
      Ok (existing_product_ids st, problematic_product_ids st,
          product_instances_list st, db st)
  end.

End Model.

(** ** core.py: the notification dispatchers. *)
Section Dispatch.
Context `{PyRuntime}.

Record CustomUser := mkUser { email : option string; username : option string }.

(** The dict handed to [send_notification.send]; the constructor is its
    ["status"] key ([NOTIFY_SUCCESS] / [NOTIFY_FAILURE]). *)
Inductive notification_data :=
| NotifySuccess (user_email user_name admin_email : option string) (file_name : string)
    (existing problematic : list string) (product : Product)
| NotifyFailure (user_email user_name admin_email : option string) (file_name : string)
    (error : string).

(** Whether the broker accepts a message: [send_notification.send] raises
    otherwise. *)
Variable broker_accepts : notification_data -> bool.

(** [send_notification.send(data)] on the queue [q]: the queue afterwards
    and the exception raised, if any. *)
Definition send (d : notification_data) (q : list notification_data)
  : list notification_data * option PyExc :=
  if broker_accepts d then ((q ++ [d])%list, None) else (q, Some BrokerError).

(** The inner loop [for product in products] of one admin. *)
Fixpoint notify_products_of_admin (user : CustomUser) (file_name : string)
  (admin : CustomUser) (existing problematic : list string) (products : list Product)
  (q : list notification_data) : list notification_data * option PyExc :=
  match products with
  | [] => (q, None)
  | product :: rest =>
      match send (NotifySuccess (email user) (username user) (email admin) file_name
                    existing problematic product) q with
      | (q', None) => notify_products_of_admin user file_name admin existing problematic rest q'
      | (q', Some e) => (q', Some e)
      end
  end.

(** core.py, [notify_admins_for_products]: no handler, an exception of
    [send] leaves the loops. *)
Fixpoint notify_admins_for_products (user : CustomUser) (file_name : string)
  (products : list Product) (existing problematic : list string)
  (all_admins : list CustomUser) (q : list notification_data)
  : list notification_data * option PyExc :=
  match all_admins with
  | [] => (q, None)
  | admin :: rest =>
      match notify_products_of_admin user file_name admin existing problematic products q with
      | (q', None) => notify_admins_for_products user file_name products existing problematic rest q'
      | (q', Some e) => (q', Some e)
      end
  end.

(** core.py, [notify_failure_to_admins]: [try ... except Exception] around
    each admin's [send], the exception is logged. *)
Fixpoint notify_failure_to_admins (user : CustomUser) (file_name error : string)
  (all_admins : list CustomUser) (q : list notification_data)
  : list notification_data * option PyExc :=
  match all_admins with
  | [] => (q, None)
  | admin :: rest =>
      let '(q', _) := send (NotifyFailure (email user) (username user) (email admin)
                              file_name error) q in
      notify_failure_to_admins user file_name error rest q'
  end.

End Dispatch.

(** ** A concrete runtime, used to run the code on examples: [float] reads
    [[+-]digits[.digits]] into [Q], [int] reads [[+-]digits] after
    stripping whitespace, and a file is given by its parse result. The
    backend has 32-bit integer columns and enforces [max_length]. *)
Definition digit_of (c : ascii) : option Z :=
  let n := nat_of_ascii c in
  if Nat.leb 48 n && Nat.leb n 57 then Some (Z.of_nat (n - 48)) else None.

Fixpoint read_digits (s : string) (acc : Z) (len : nat) : Z * nat * string :=
  match s with
  | String c s' =>
      match digit_of c with
      | Some d => read_digits s' (10 * acc + d) (S len)
      | None => (acc, len, s)
      end
  | EmptyString => (acc, len, s)
  end.

Definition read_sign (s : string) : Z * string :=
  match s with
  | String "-" r => (-1, r)
  | String "+" r => (1, r)
  | _ => (1, s)
  end%Z.

Definition dec_float (s : string) : option Q :=
  let '(sg, s1) := read_sign s in
  let '(ip, ni, r1) := read_digits s1 0 0 in
  match r1 with
  | EmptyString => if Nat.eqb ni 0 then None else Some (Qmake (sg * ip) 1)
  | String "." r2 =>
      let '(fp, nf, r3) := read_digits r2 0 0 in
      match r3 with
      | EmptyString =>
          if Nat.eqb (ni + nf) 0 then None
          else Some (Qmake (sg * (ip * 10 ^ Z.of_nat nf + fp)) (Z.to_pos (10 ^ Z.of_nat nf)))
      | _ => None
      end
  | _ => None
  end.

Definition dec_int (s : string) : option Z :=
  match py_split s with
  | [tok] =>
      let '(sg, s1) := read_sign tok in
      let '(v, n, r) := read_digits s1 0 0 in
      match r with
      | EmptyString => if Nat.eqb n 0 then None else Some (sg * v)%Z
      | _ => None
      end
  | _ => None
  end.

(** [|q|] rounded to [places] decimal places, half up, as an integer
    count of units of [10 ^ -places]. *)
Definition q_scaled_abs (q : Q) (places : Z) : Z :=
  let n := (Z.abs (Qnum q) * 10 ^ places)%Z in
  let d := Zpos (Qden q) in
  ((2 * n + d) / (2 * d))%Z.

(** A decimal with [max_digits] digits, [places] of them after the point,
    holds [q]. *)
Definition dec_fits (max_digits places : Z) (q : Q) : bool :=
  (q_scaled_abs q places <? 10 ^ max_digits)%Z.

#[global] Instance DecimalRuntime : PyRuntime := {|
  pyfloat := Q;
  py_float := dec_float;
  py_int := dec_int;
  xml_file := option element;
  et_parse := fun f => f;
  py_int_zero := eq_refl;
  db_decimal_ok := dec_fits;
  db_int_ok := fun z => ((-2147483648 <=? z) && (z <? 2147483648))%Z;
  db_varchar_ok := fun n s => (Z.of_nat (String.length s) <=? n)%Z;
  drf_decimal_ok := dec_fits
|}.

Example dec_float_ex : dec_float "199.99" = Some (Qmake 19999 100).
Proof. reflexivity. Qed.
Example dec_int_ex : dec_int " 5 " = Some 5%Z /\ dec_int "abc" = None.
Proof. split; reflexivity. Qed.
Example py_split_ex : py_split "123.45  extra" = ["123.45"; "extra"] /\ py_split "  " = [].
Proof. split; reflexivity. Qed.

(** ** The per-item outcomes of the spec (section 4.3, step 3), one per
    item and in document order: the lists a run returns are their
    concatenations. *)
Section Outcomes.
Context `{PyRuntime}.

Inductive item_outcome :=
| Existing (pid : string)
| Problematic (pid : string)
| Unreported
| Created (p : Product).

(** Step 3 for one item: (a) read the id; (b) a present id already in
    the table is "existing"; (c) otherwise map, create and serialize, the id
    going to "problematic" on failure when it is known. A row whose
    serialization fails stays in the table. *)
Definition classify (cat : gmap string Product) (item : element)
  : item_outcome * gmap string Product :=
  let pid := get_text (find item (g "id")) None in
  match pid with
  | Some s => if truthy pid && exists_id cat s then (Existing s, cat) else
      match create_product_instance item cat with
      | Ok (p, cat') =>
          match serialize p with
          | Ok d => (Created d, cat')
          | Raise _ => if truthy pid then (Problematic s, cat') else (Unreported, cat')
          end
      | Raise _ => if truthy pid then (Problematic s, cat) else (Unreported, cat)
      end
  | None =>
      match create_product_instance item cat with
      | Ok (p, cat') =>
          match serialize p with
          | Ok d => (Created d, cat')
          | Raise _ => (Unreported, cat')
          end
      | Raise _ => (Unreported, cat)
      end
  end.

Fixpoint outcomes (cat : gmap string Product) (items : list element) : list item_outcome :=
  match items with
  | [] => []
  | it :: rest => let '(o, cat') := classify cat it in o :: outcomes cat' rest
  end.

Definition existing_of (o : item_outcome) : list string :=
  match o with Existing pid => [pid] | _ => [] end.
Definition problematic_of (o : item_outcome) : list string :=
  match o with Problematic pid => [pid] | _ => [] end.
Definition created_of (o : item_outcome) : list Product :=
  match o with Created p => [p] | _ => [] end.

End Outcomes.

(** [r] returned without raising. *)
Definition is_ok {A} (r : res A) : bool :=
  match r with Ok _ => true | Raise _ => false end.

(** The invariant of the loop of [handle_uploaded_file] started on the
    table [cat]: stored records stay; every record of the table afterwards
    was stored before, or was inserted under its own id, free before, and is
    then a created record or a record that could not be serialized, its id
    reported problematic when it is not empty; every created record is
    stored under an id that was free before and serializes to itself; the
    created ids are distinct; every id reported existing names a stored
    record. *)
Definition batch_inv `{PyRuntime} (cat : gmap string Product) (st : Batch) : Prop :=
  (forall k v, cat !! k = Some v -> db st !! k = Some v) /\
  (forall k v, db st !! k = Some v ->
     cat !! k = Some v \/
     (cat !! k = None /\ product_id v = Some k /\
      (In v (product_instances_list st) \/
       ((exists e, serialize v = Raise e) /\
        (k <> "" -> In k (problematic_product_ids st)))))) /\
  (forall p, In p (product_instances_list st) ->
     exists pid, product_id p = Some pid /\ cat !! pid = None /\ db st !! pid = Some p /\
                 serialize p = Ok p) /\
  NoDup (map product_id (product_instances_list st)) /\
  (forall pid, In pid (existing_product_ids st) -> is_Some (db st !! pid)).

(** ** views.py, and the Django calls its views make. *)
Section Views.
Context `{PyRuntime}.

(** A JSON value as the renderer writes it; [JRecord] is a serialized
    record. *)
Inductive json :=
| JNull
| JStr (s : string)
| JInt (z : Z)
| JList (xs : list json)
| JObj (kv : list (string * json))
| JRecord (data : Product).

(** The body of a [Response]: a JSON object of strings, the data of a
    serialized record, or any other JSON value. *)
Inductive body :=
| JsonBody (kv : list (string * string))
| RecordBody (data : Product)
| JsonValue (v : json).

Record Response := mkResponse { status_code : Z; response_body : body }.

(** A row of the user table with the columns the views read;
    [password_hash] is the stored [password] column. *)
Record UserRow := mkUserRow {
  row_user : CustomUser;
  password_hash : string;
  is_active : bool;
  is_superuser : bool;
  is_staff : bool
}.

(** [CustomUser.objects.filter(is_superuser=True, is_staff=True)] *)
Definition all_admins_of (users : list UserRow) : list CustomUser :=
  map row_user (List.filter (fun u => is_superuser u && is_staff u) users).

(** The ["admin_email"] key of a payload. *)
Definition payload_admin_email (d : notification_data) : option string :=
  match d with
  | NotifySuccess _ _ admin_email _ _ _ _ => admin_email
  | NotifyFailure _ _ admin_email _ _ => admin_email
  end.

Variable broker_accepts : notification_data -> bool.
(** [file.name] of an uploaded file. *)
Variable file_name_of : xml_file -> string.
(** [str(e)] *)
Variable exc_str : PyExc -> string.

(** views.py, [upload_products] (lines 141-165). [file] is
    [request.FILES.get("file")]; an uploaded file is falsy when its name is
    empty. The result is the response, the product table and the task queue
    afterwards. The [try] covers both [handle_uploaded_file] and
    [notify_admins_for_products]. *)
Definition upload_products (file : option xml_file) (user : CustomUser) (users : list UserRow)
  (cat : gmap string Product) (q : list notification_data)
  : Response * gmap string Product * list notification_data :=
  let no_file := (mkResponse 400 (JsonBody [("error", "No file provided")]), cat, q) in
  match file with
  | None => no_file
  | Some file =>
      if String.eqb (file_name_of file) "" then no_file else
      let all_admins := all_admins_of users in
      let on_error e cat' q' :=
        let '(q'', _) := notify_failure_to_admins broker_accepts user (file_name_of file)
                           (exc_str e) all_admins q' in
        (mkResponse 400 (JsonBody [("error", exc_str e)]), cat', q'') in
      match handle_uploaded_file file cat with
      | Raise e => on_error e cat q
      | Ok (existing_product_ids, problematic_product_ids, products, cat') =>
          match notify_admins_for_products broker_accepts user (file_name_of file) products
                  existing_product_ids problematic_product_ids all_admins q with
          | (q', None) =>
              (mkResponse 201 (JsonBody [("message", "Products uploaded successfully")]), cat', q')
          | (q', Some e) => on_error e cat' q'
          end
      end
  end.

(** views.py, [product_detail] (lines 216-235):
    [Product.objects.get(id=product_id)]; [DoesNotExist] gives 404, and any
    other exception, such as serializing the row, gives 400 with [str(e)]. *)
Definition product_detail (cat : gmap string Product) (product_id : string) : Response :=
  match cat !! product_id with
  | Some product =>
      match serialize product with
      | Ok data => mkResponse 200 (RecordBody data)
      | Raise e => mkResponse 400 (JsonBody [("error", exc_str e)])
      end
  | None => mkResponse 404 (JsonBody [("error", "Product not found.")])
  end.

(** [user.check_password(raw)]: the raw password against the stored hash. *)
Variable check_password : string -> string -> bool.
(** The key [Token.objects.get_or_create] generates for a new token. *)
Variable new_token_key : string.

(** [get_by_natural_key(u)]: the row whose username is [u]. *)
Definition find_user (users : list UserRow) (u : string) : option UserRow :=
  List.find (fun r => bool_decide (username (row_user r) = Some u)) users.

(** [authenticate(username=..., password=...)] with Django's default
    [ModelBackend]: [None] when the username or the password is missing,
    the username is unknown, the password is wrong or the user is
    inactive. *)
Definition authenticate (users : list UserRow) (username password : option string)
  : option UserRow :=
  match username, password with
  | Some u, Some pw =>
      match find_user users u with
      | Some r => if check_password (password_hash r) pw && is_active r then Some r else None
      | None => None
      end
  | _, _ => None
  end.

(** views.py, [login] (lines 53-81). The token table maps a username
    (usernames are unique) to the key of the user's token. *)
Definition login (users : list UserRow) (tokens : gmap string string)
  (username password : option string) : Response * gmap string string :=
  match username, authenticate users username password with
  | Some u, Some _ =>
      let '(key, tokens') :=
        match tokens !! u with
        | Some key => (key, tokens)
        | None => (new_token_key, <[u := new_token_key]> tokens)
        end in
      (mkResponse 200 (JsonBody [("token", key); ("username", u)]), tokens')
  | _, _ =>
      let user_exists :=
        match username with Some u => is_Some_b (find_user users u) | None => false end in
      if user_exists then (mkResponse 400 (JsonBody [("error", "Invalid Password.")]), tokens)
      else (mkResponse 404 (JsonBody [("error", "User not found.")]), tokens)
  end.

End Views.

(** ** tasks/product.py: the e-mail [send_notification] sends. *)
Section Task.
Context `{PyRuntime}.

(** [f"{x}"] on an [Optional[str]]: [None] prints as ["None"]. *)
Definition fmt (x : option string) : string := match x with Some s => s | None => "None" end.

(** [sep.join(parts)] *)
Fixpoint py_join (sep : string) (parts : list string) : string :=
  match parts with
  | [] => ""
  | [x] => x
  | x :: rest => x ++ sep ++ py_join sep rest
  end.

(** ["\n"] *)
Definition newline : string := String (ascii_of_nat 10) EmptyString.

(** [product.items()] of the serialized record, each value printed as an
    f-string prints it. *)
Variable product_items : Product -> list (string * string).

(** tasks/product.py, [send_notification] (lines 42-75): the subject, the
    recipient and the body it passes to [send_email]. The ["error"] key of a
    failure payload is never read. *)
Definition send_notification (notification_data : notification_data)
  : string * option string * string :=
  match notification_data with
  | NotifySuccess user_email user_name admin_email file_name
                  existing_product_ids problematic_product_ids product =>
      let product_details :=
        py_join newline (map (fun '(key, value) => key ++ ": " ++ value) (product_items product)) in
      let subject := "Product Upload Successful" in
      let message :=
        "Hi admin," ++ newline ++ newline ++ "User " ++ fmt user_name ++ " (" ++ fmt user_email
        ++ ") uploaded a product within '" ++ file_name ++ "' with the following details:"
        ++ newline ++ newline ++ product_details in
      let message :=
        match existing_product_ids with
        | [] => message
        | _ => message ++ newline ++ newline
               ++ "User also tried to upload products that already exist in the system. Here are the IDs:"
               ++ newline ++ py_join ", " existing_product_ids
        end in
      let message :=
        match problematic_product_ids with
        | [] => message
        | _ => message ++ newline ++ newline
               ++ "Some products encountered errors during the upload. Please check the system logs for more details. Here are the IDs:"
               ++ newline ++ py_join ", " problematic_product_ids
        end in
      (subject, admin_email, message)
  | NotifyFailure user_email user_name admin_email file_name _ =>
      ("Product Upload Failed", admin_email,
       "Hi admin," ++ newline ++ newline ++ "While user " ++ fmt user_name ++ " (" ++ fmt user_email
       ++ ") was uploading document '" ++ file_name ++ "', an error occurred.")
  end.

End Task.

(** ** Accounts: [signup] and [logout] (views.py) with [UserSerializer]
    (serializers.py). *)

(** The signup request body: username, email, password, first and last
    name; [None] for an absent key. *)
Record SignupData := mkSignupData {
  su_username : option string;
  su_email : option string;
  su_password : option string;
  su_first_name : option string;
  su_last_name : option string
}.

(** The outcome of [UserSerializer.validate]. *)
Inductive validation :=
| Validated
| Invalid (detail : list (string * list string))
| Uncaught.

Section Accounts.
Context `{PyRuntime}.

(** The field-level pass of [UserSerializer(data=...).is_valid()]
    ([to_internal_value] and the field validators: required fields,
    [EmailField], [max_length], the unique validators of the model), run
    against the user table: the [(field, messages)] pairs of
    [serializer.errors], or the validated data. *)
Variable to_internal_value : list UserRow -> SignupData -> list (string * list string) + SignupData.
(** [make_password(raw)] *)
Variable make_password : string -> string.
(** [AbstractBaseUser.normalize_username] (NFKC) *)
Variable normalize_username : string -> string.
(** [BaseUserManager.normalize_email] *)
Variable normalize_email : string -> string.

(** [serializer.errors] / [e.detail] of a dict-shaped [ValidationError]. *)
Definition errors_json (errs : list (string * list string)) : json :=
  JObj (map (fun '(field, messages) => (field, JList (map JStr messages))) errs).

(** serializers.py, [UserSerializer.validate] (lines 21-41), on the validated
    data. [CustomUser.objects.filter(username=username).exists()] compares
    the column with [username], [None] matching a NULL column. A missing
    password makes [len(password)] raise [TypeError], which no handler
    catches. *)
Definition validate (users : list UserRow) (data : SignupData) : validation :=
  let password := su_password data in
  if List.existsb (fun r => bool_decide (username (row_user r) = su_username data)) users then
    Invalid [("username", ["This username is already taken."])]
  else if List.existsb (fun r => bool_decide (email (row_user r) = su_email data)) users then
    Invalid [("email", ["This email is already registered."])]
  else
    match password with
    | None => Uncaught
    | Some pw =>
        if (String.length pw <? 4)%nat then
          Invalid [("password", ["Password should have a minimum of 4 characters."])]
        else Validated
    end.

(** serializers.py, [UserSerializer.create] (lines 43-58):
    [CustomUser.objects.create_user] stores an active user that is neither
    staff nor superuser, with the normalized username and email and the
    hashed password. The unique constraints on [username] and [email] raise
    [IntegrityError] when the normalized username or email is already
    stored. That exception, like a missing key ([KeyError]), is re-raised as
    a [ValidationError]: [None]. *)
Definition create (users : list UserRow) (validated_data : SignupData) : option UserRow :=
  match su_username validated_data, su_email validated_data, su_password validated_data with
  | Some u, Some e, Some pw =>
      let user := mkUser (Some (normalize_email e)) (Some (normalize_username u)) in
      if List.existsb (fun r => bool_decide (username (row_user r) = username user)
                               || bool_decide (email (row_user r) = email user)) users
      then None
      else Some (mkUserRow user (make_password pw) true false false)
  | _, _, _ => None
  end.

(** views.py, [signup] (lines 25-48). With [raise_exception=True],
    [is_valid] raises on every validation failure, so each of them is
    answered 409 with the error detail. [None] is an exception that escapes
    the view. The result is the response and the user table afterwards. *)
Definition signup (users : list UserRow) (data : SignupData) : option Response * list UserRow :=
  let conflict detail := (Some (mkResponse 409 (JsonValue detail)), users) in
  match to_internal_value users data with
  | inl errors => conflict (errors_json errors)
  | inr validated_data =>
      match validate users validated_data with
      | Invalid detail => conflict (errors_json detail)
      | Uncaught => (None, users)
      | Validated =>
          match create users validated_data with
          | Some user =>
              (Some (mkResponse 201 (JsonBody [("message", "Signed up successfully!")])),
               (users ++ [user])%list)
          | None => conflict (JList [JStr "An error occurred while creating the user."])
          end
      end
  end.

(** views.py, [logout] (lines 86-100), for the authenticated [user]:
    [request.user.auth_token.delete()] removes the user's token, and raises
    when the user has none. *)
Definition logout (user : CustomUser) (tokens : gmap string string)
  : option Response * gmap string string :=
  match username user with
  | Some u =>
      match tokens !! u with
      | Some _ =>
          (Some (mkResponse 200 (JsonBody [("message", "User " ++ fmt (username user)
              ++ " with an email " ++ fmt (email user) ++ " logged out successfully")])),
           delete u tokens)
      | None => (None, tokens)
      end
  | None => (None, tokens)
  end.

End Accounts.

(** ** Listing: [list_products] and [filter_options] (views.py). *)






Section Listing.
Context `{PyRuntime}.





(** The products of the table, in the table's order. *)
Definition all_products (cat : gmap string Product) : list Product :=
  map snd (map_to_list cat).



(** [products.order_by(sort_by)]: the products sorted on a field, or
    [None] when [sort_by] names no field ([FieldError]). *)
Variable order_by : string -> list Product -> option (list Product).
(** The absolute URL of the current request with [page] set to a number,
    and with [page] removed. *)
Variable page_url : Z -> string.
Variable first_page_url : string.







(** [SELECT DISTINCT] on one column: each value once, at its first
    occurrence; [seen] holds the values already listed. *)
Fixpoint distinct_aux (seen : list (option string)) (xs : list (option string))
  : list (option string) :=
  match xs with
  | [] => []
  | x :: rest =>
      if List.existsb (fun y => bool_decide (y = x)) seen then distinct_aux seen rest
      else x :: distinct_aux (x :: seen) rest
  end.

Definition json_of_opt (x : option string) : json :=
  match x with Some s => JStr s | None => JNull end.

(** [Product.objects.values_list(field, flat=True).distinct()] *)
Definition values_distinct (field : Product -> option string)
  (cat : gmap string Product) : list (option string) :=
  distinct_aux [] (map field (all_products cat)).

(** views.py, [filter_options] (lines 240-250). *)
Definition filter_options (cat : gmap string Product) : Response :=
  mkResponse 200 (JsonValue (JObj [
    ("conditions", JList (map json_of_opt (values_distinct condition cat)));
    ("genders", JList (map json_of_opt (values_distinct gender cat)));
    ("brands", JList (map json_of_opt (values_distinct brand cat)))])).


End Listing.


(** The element with one more child at the end of its children. *)
Definition add_child (e c : element) : element :=
  Elem (el_tag e) (el_text e) (el_attrib e) (el_children e ++ [c]).






(** ** Sample feeds. *)
Definition leaf (t x : string) : element := Elem t (Some x) [] [].

(** The item of the spec's scenario: id ["67890"], every required field,
    price ["199.99"], no [g:sale_price]. *)
Definition sample_item (pid : string) : element :=
  Elem "item" None []
    [leaf (g "id") pid; leaf "title" "Sneaker"; leaf (g "product_type") "Shoes";
     leaf "link" "https://example.com/p"; leaf "description" "A shoe";
     leaf (g "image_link") "https://example.com/p.jpg"; leaf (g "price") "199.99";
     leaf (g "availability") "in stock"; leaf (g "brand") "BrandX";
     leaf (g "gtin") "0001"; leaf (g "item_group_id") "G1"; leaf (g "condition") "new";
     leaf (g "age_group") "adult"; leaf (g "color") "black"; leaf (g "gender") "unisex"].

Definition feed (items : list element) : element :=
  Elem "rss" None [] [Elem "channel" None [] items].

Definition run_feed (items : list element) (cat : gmap string Product)
  : res (list string * list string * list Product * (gmap string Product)) :=
  @handle_uploaded_file DecimalRuntime (Some (feed items)) cat.

Definition run_lists (r : res (list string * list string * list Product * (gmap string Product)))
  : option (list string * list string * list (option string * option Q)) :=
  match r with
  | Ok (ex, pr, cr, _) => Some (ex, pr, map (fun p => (product_id p, sale_price p)) cr)
  | Raise _ => None
  end.

Example scenario_67890 :
  run_lists (run_feed [sample_item "67890"] ∅) =
  Some ([], [], [(Some "67890", None)]).
Proof. vm_compute. reflexivity. Qed.

(** ** Properties. *)
Section Proofs.
Context `{PyRuntime}.
Local Open Scope list_scope.

Lemma truthy_some (s : string) : truthy (Some s) = true <-> s <> "".
Proof.
  unfold truthy. rewrite negb_true_iff, String.eqb_neq. tauto.
Qed.

Lemma split_aux_spaces (t : string) :
  Forall (fun c => is_py_space c = true) (list_ascii_of_string t) -> split_aux t [] = [].
Proof.
  induction t as [|c t IH]; simpl; intros Hs; [reflexivity|].
  inversion Hs as [|? ? Hc Ht]; subst. rewrite Hc. apply IH, Ht.
Qed.

Lemma build_product_id (item : element) (p : Product) :
  build_product item = Ok p -> product_id p = get_text (find item (g "id")) None.
Proof.
  unfold build_product, bind. intros Hb.
  repeat (case_match; try discriminate); injection Hb as <-; reflexivity.
Qed.

Lemma objects_create_ok (p : Product) (cat cat' : gmap string Product) (p' : Product) :
  objects_create p cat = Ok (p', cat') ->
  p' = with_pk p (pk_value (product_id p)) /\ cat !! pk_value (product_id p) = None /\
  cat' = <[pk_value (product_id p) := p']> cat.
Proof.
  unfold objects_create, exists_id. cbv zeta. intros Ho.
  destruct (negb (db_values_ok _)); [discriminate|].
  destruct (not_null_ok _); [|discriminate].
  case_bool_decide as Hex; [discriminate|].
  injection Ho as <- <-. split; [reflexivity|]. split; [|reflexivity].
  destruct (cat !! _) eqn:E; [|reflexivity]. exfalso; apply Hex; eauto.
Qed.

Lemma create_ok_inv (item : element) (cat cat' : gmap string Product) (p : Product) :
  create_product_instance item cat = Ok (p, cat') ->
  product_id p = Some (pk_value (get_text (find item (g "id")) None)) /\
  cat !! pk_value (get_text (find item (g "id")) None) = None /\
  cat' = <[pk_value (get_text (find item (g "id")) None) := p]> cat.
Proof.
  unfold create_product_instance, bind. intros Hc.
  destruct (build_product item) as [p0|e] eqn:Hb; [|discriminate].
  apply objects_create_ok in Hc as (-> & Hnone & ->).
  rewrite <- (build_product_id item p0 Hb). auto.
Qed.

Lemma exists_id_free (cat : gmap string Product) (pid : string) :
  cat !! pid = None -> exists_id cat pid = false.
Proof.
  intros Hn. unfold exists_id. rewrite Hn. apply bool_decide_eq_false. inversion 1; discriminate.
Qed.

(** The four outcomes of one loop iteration. *)
Lemma process_item_existing (st : Batch) (item : element) (pid : string) :
  get_text (find item (g "id")) None = Some pid -> pid <> "" ->
  exists_id (db st) pid = true ->
  process_item st item =
  mkBatch (existing_product_ids st ++ [pid]) (problematic_product_ids st)
          (product_instances_list st) (db st).
Proof.
  intros Hid Hne Hex. unfold process_item. rewrite Hid.
  apply truthy_some in Hne. rewrite Hne, Hex. reflexivity.
Qed.

Lemma process_item_failed (st : Batch) (item : element) (pid : string) (e : PyExc) :
  get_text (find item (g "id")) None = Some pid -> pid <> "" ->
  exists_id (db st) pid = false ->
  create_product_instance item (db st) = Raise e ->
  process_item st item =
  mkBatch (existing_product_ids st) (problematic_product_ids st ++ [pid])
          (product_instances_list st) (db st).
Proof.
  intros Hid Hne Hex Hc. unfold process_item. rewrite Hid.
  apply truthy_some in Hne. rewrite Hne, Hex, Hc. reflexivity.
Qed.

Lemma process_item_failed_noid (st : Batch) (item : element) (e : PyExc) :
  truthy (get_text (find item (g "id")) None) = false ->
  create_product_instance item (db st) = Raise e ->
  process_item st item = st.
Proof.
  intros Hid Hc. unfold process_item.
  destruct (get_text (find item (g "id")) None) as [pid|]; rewrite Hc; [|reflexivity].
  simpl in Hid |- *. rewrite Hid. reflexivity.
Qed.

Lemma process_item_created (st : Batch) (item : element) (p : Product) (cat' : gmap string Product)
  (d : Product) :
  create_product_instance item (db st) = Ok (p, cat') -> serialize p = Ok d ->
  process_item st item =
  mkBatch (existing_product_ids st) (problematic_product_ids st)
          (product_instances_list st ++ [d]) cat'.
Proof.
  intros Hc Hs. pose proof (create_ok_inv _ _ _ _ Hc) as (_ & Hnone & _).
  unfold process_item.
  destruct (get_text (find item (g "id")) None) as [pid|]; cbn [pk_value] in Hnone.
  - rewrite (exists_id_free _ _ Hnone), andb_false_r, Hc, Hs. reflexivity.
  - rewrite Hc, Hs. reflexivity.
Qed.

(** An item whose row is inserted but cannot be serialized: the row stays,
    and the id goes to the problematic list when it is truthy. *)
Lemma process_item_unserializable (st : Batch) (item : element) (p : Product)
  (cat' : gmap string Product) (e : PyExc) :
  create_product_instance item (db st) = Ok (p, cat') -> serialize p = Raise e ->
  process_item st item =
  mkBatch (existing_product_ids st)
          (problematic_product_ids st ++
             (if truthy (get_text (find item (g "id")) None)
              then [pk_value (get_text (find item (g "id")) None)] else []))
          (product_instances_list st) cat'.
Proof.
  intros Hc Hs. pose proof (create_ok_inv _ _ _ _ Hc) as (_ & Hnone & _).
  unfold process_item.
  destruct (get_text (find item (g "id")) None) as [pid|]; cbn [pk_value] in Hnone.
  - rewrite (exists_id_free _ _ Hnone), andb_false_r, Hc, Hs.
    destruct (truthy (Some pid)); rewrite ?app_nil_r; reflexivity.
  - rewrite Hc, Hs. cbn. rewrite app_nil_r. reflexivity.
Qed.

(** A stored record is never changed by an iteration. *)
Lemma process_item_db_keeps (st : Batch) (item : element) (k : string) (v : Product) :
  db st !! k = Some v -> db (process_item st item) !! k = Some v.
Proof.
  intros Hk. unfold process_item.
  destruct (create_product_instance item (db st)) as [[p cat']|e] eqn:Hc.
  - pose proof (create_ok_inv _ _ _ _ Hc) as (_ & Hnone & ->).
    assert (Hk' : (<[pk_value (get_text (find item (g "id")) None) := p]> (db st)) !! k = Some v).
    { rewrite lookup_insert_ne; [exact Hk|]. intros Heq. rewrite Heq in Hnone. congruence. }
    revert Hnone Hk'.
    destruct (get_text (find item (g "id")) None) as [pid|]; cbn [pk_value]; intros Hnone Hk'.
    + rewrite (exists_id_free _ _ Hnone), andb_false_r.
      destruct (serialize p); [exact Hk'|]. destruct (truthy (Some pid)); exact Hk'.
    + destruct (serialize p); exact Hk'.
  - destruct (get_text (find item (g "id")) None) as [pid|];
      [destruct (truthy (Some pid) && exists_id (db st) pid); [|destruct (truthy (Some pid))]|];
      exact Hk.
Qed.

(** C1: [handle_uploaded_file] raises exactly when the document does not
    parse. When it parses it returns the three lists built by running the
    loop over every item. An item whose create raises puts its id on the
    problematic list when the id is readable and truthy, and changes
    nothing when the id is unreadable. *)
Theorem handle_uploaded_file_error_isolation (file : xml_file) (cat : gmap string Product) :
  ((exists e, handle_uploaded_file file cat = Raise e) <-> et_parse file = None) /\
  (forall root, et_parse file = Some root ->
     handle_uploaded_file file cat =
     let st := fold_left process_item (findall_channel_item root) (mkBatch [] [] [] cat) in
     Ok (existing_product_ids st, problematic_product_ids st, product_instances_list st, db st)) /\
  (forall st item pid e,
     get_text (find item (g "id")) None = Some pid -> pid <> "" ->
     exists_id (db st) pid = false ->
     create_product_instance item (db st) = Raise e ->
     process_item st item =
     mkBatch (existing_product_ids st) (problematic_product_ids st ++ [pid])
             (product_instances_list st) (db st)) /\
  (forall st item e,
     truthy (get_text (find item (g "id")) None) = false ->
     create_product_instance item (db st) = Raise e ->
     process_item st item = st).
Proof.
  split; [|split; [|split]].
  - unfold handle_uploaded_file. destruct (et_parse file); split.
    + intros [ex Hex]; discriminate.
    + discriminate.
    + reflexivity.
    + intros _. eauto.
  - intros root Hr. unfold handle_uploaded_file. rewrite Hr. reflexivity.
  - intros st item pid e. apply process_item_failed.
  - intros st item e. apply process_item_failed_noid.
Qed.


(** C3: an item whose id is truthy and already in the table only appends
    the id to the existing list. Nothing is created, nothing is reported
    problematic, and the table is unchanged. Over a whole run, every record
    stored before the run is still stored, unchanged, afterwards. *)
Theorem existing_id_skipped_unchanged :
  (forall st item pid,
     get_text (find item (g "id")) None = Some pid -> pid <> "" ->
     exists_id (db st) pid = true ->
     process_item st item =
     mkBatch (existing_product_ids st ++ [pid]) (problematic_product_ids st)
             (product_instances_list st) (db st)) /\
  (forall file cat root k v ex pr cr cat',
     et_parse file = Some root -> cat !! k = Some v ->
     handle_uploaded_file file cat = Ok (ex, pr, cr, cat') ->
     cat' !! k = Some v).
Proof.
  split.
  - intros st item pid. apply process_item_existing.
  - intros file cat root k v ex pr cr cat' Hr Hk Hh.
    unfold handle_uploaded_file in Hh. rewrite Hr in Hh. injection Hh as _ _ _ <-.
    assert (Hgen : forall items st, db st !! k = Some v ->
                   db (fold_left process_item items st) !! k = Some v).
    { induction items as [|it items IH]; intros st0 Hst; [exact Hst|].
      apply IH, process_item_db_keeps, Hst. }
    apply Hgen. exact Hk.
Qed.

(** C8 (as the code has it): [get_text] returns the node's text whenever
    the node exists and its text is not [None], the empty string included.
    It returns the default when the node is absent or its text is [None].
    It is total. *)
Theorem get_text_spec :
  (forall el t d, el_text el = Some t -> get_text (Some el) d = Some t) /\
  (forall el d, el_text el = None -> get_text (Some el) d = d) /\
  (forall d, get_text None d = d).
Proof.
  split; [|split].
  - intros el t d He. unfold get_text. rewrite He. reflexivity.
  - intros el d He. unfold get_text. rewrite He. reflexivity.
  - reflexivity.
Qed.

(** C10: on a node whose text is non-empty and all whitespace, [split()]
    gives no token and [get_float_text] raises [IndexError]. *)
Theorem get_float_text_whitespace_index_error (el : element) (t : string)
  (d : option pyfloat) :
  el_text el = Some t -> t <> "" ->
  Forall (fun c => is_py_space c = true) (list_ascii_of_string t) ->
  get_float_text (Some el) d = Raise IndexError.
Proof.
  intros He Hne Hs. unfold get_float_text. rewrite He.
  apply truthy_some in Hne. rewrite Hne. unfold py_split. rewrite split_aux_spaces by exact Hs.
  reflexivity.
Qed.

(** Dispatch when the broker accepts every message. *)
Lemma notify_products_of_admin_all (ba : notification_data -> bool) user file_name admin
  existing problematic (products : list Product) (q : list notification_data) :
  (forall d, ba d = true) ->
  notify_products_of_admin ba user file_name admin existing problematic products q =
  (q ++ map (fun product => NotifySuccess (email user) (username user) (email admin)
                              file_name existing problematic product) products, None).
Proof.
  intros Hall. revert q. induction products as [|pr rest IH]; intros q; simpl.
  - rewrite app_nil_r. reflexivity.
  - unfold send. rewrite Hall. rewrite IH, <- app_assoc. reflexivity.
Qed.

Lemma notify_admins_for_products_all (ba : notification_data -> bool) user file_name
  products existing problematic (all_admins : list CustomUser) (q : list notification_data) :
  (forall d, ba d = true) ->
  notify_admins_for_products ba user file_name products existing problematic all_admins q =
  (q ++ flat_map (fun admin => map (fun product =>
          NotifySuccess (email user) (username user) (email admin) file_name
                        existing problematic product) products) all_admins, None).
Proof.
  intros Hall. revert q. induction all_admins as [|a rest IH]; intros q; simpl.
  - rewrite app_nil_r. reflexivity.
  - rewrite notify_products_of_admin_all by exact Hall. rewrite IH, <- app_assoc. reflexivity.
Qed.

Lemma notify_admins_for_products_none (ba : notification_data -> bool) user file_name
  existing problematic (all_admins : list CustomUser) (q : list notification_data) :
  notify_admins_for_products ba user file_name [] existing problematic all_admins q = (q, None).
Proof.
  revert q. induction all_admins as [|a rest IH]; intros q; simpl; [reflexivity|]. apply IH.
Qed.

Lemma notify_failure_to_admins_all (ba : notification_data -> bool) user file_name error
  (all_admins : list CustomUser) (q : list notification_data) :
  (forall d, ba d = true) ->
  notify_failure_to_admins ba user file_name error all_admins q =
  (q ++ map (fun admin => NotifyFailure (email user) (username user) (email admin)
                            file_name error) all_admins, None).
Proof.
  intros Hall. revert q. induction all_admins as [|a rest IH]; intros q; simpl.
  - rewrite app_nil_r. reflexivity.
  - unfold send. rewrite Hall. rewrite IH, <- app_assoc. reflexivity.
Qed.

Lemma length_flat_map_const {A B} (f : A -> list B) (n : nat) (l : list A) :
  (forall a, length (f a) = n) -> length (flat_map f l) = (length l * n)%nat.
Proof.
  intros Hf. induction l as [|a l IH]; simpl; [reflexivity|].
  rewrite length_app, Hf, IH. reflexivity.
Qed.

(** C4: when every [send] is accepted, the success dispatcher enqueues one
    payload per (admin, product) pair, N x M in all. Each payload carries
    the full existing and problematic lists. With no product it enqueues
    nothing, whatever the lists and the broker. The failure dispatcher
    enqueues one payload per admin carrying the error string. *)
Theorem notify_fan_out (broker_accepts : notification_data -> bool) (user : CustomUser)
  (file_name error : string) (products : list Product) (existing problematic : list string)
  (all_admins : list CustomUser) (q : list notification_data) :
  (products = [] ->
     notify_admins_for_products broker_accepts user file_name products existing problematic
       all_admins q = (q, None)) /\
  ((forall d, broker_accepts d = true) ->
     exists sent,
       notify_admins_for_products broker_accepts user file_name products existing problematic
         all_admins q = (q ++ sent, None) /\
       sent = flat_map (fun admin => map (fun product =>
                NotifySuccess (email user) (username user) (email admin) file_name
                              existing problematic product) products) all_admins /\
       length sent = (length all_admins * length products)%nat) /\
  ((forall d, broker_accepts d = true) ->
     exists sent,
       notify_failure_to_admins broker_accepts user file_name error all_admins q =
       (q ++ sent, None) /\
       sent = map (fun admin => NotifyFailure (email user) (username user) (email admin)
                                  file_name error) all_admins /\
       length sent = length all_admins).
Proof.
  split; [|split].
  - intros ->. apply notify_admins_for_products_none.
  - intros Hall. eexists. split; [apply notify_admins_for_products_all, Hall|].
    split; [reflexivity|]. apply length_flat_map_const. intros a. apply length_map.
  - intros Hall. eexists. split; [apply notify_failure_to_admins_all, Hall|].
    split; [reflexivity|]. apply length_map.
Qed.


Lemma process_item_classify (st : Batch) (item : element) :
  process_item st item =
  let '(o, cat') := classify (db st) item in
  mkBatch (existing_product_ids st ++ existing_of o) (problematic_product_ids st ++ problematic_of o)
          (product_instances_list st ++ created_of o) cat'.
Proof.
  unfold process_item, classify.
  destruct (get_text (find item (g "id")) None) as [pid|].
  - destruct (truthy (Some pid) && exists_id (db st) pid);
      [|destruct (create_product_instance item (db st)) as [[p cat']|e];
        [destruct (serialize p); [|destruct (truthy (Some pid))]|destruct (truthy (Some pid))]];
      cbn [existing_of problematic_of created_of]; rewrite ?app_nil_r; try reflexivity.
    destruct st; reflexivity.
  - destruct (create_product_instance item (db st)) as [[p cat']|e];
      [destruct (serialize p)|];
      cbn [existing_of problematic_of created_of]; rewrite ?app_nil_r; try reflexivity.
    destruct st; reflexivity.
Qed.

Lemma fold_process_items (items : list element) (st : Batch) :
  let os := outcomes (db st) items in
  existing_product_ids (fold_left process_item items st) =
    existing_product_ids st ++ flat_map existing_of os /\
  problematic_product_ids (fold_left process_item items st) =
    problematic_product_ids st ++ flat_map problematic_of os /\
  product_instances_list (fold_left process_item items st) =
    product_instances_list st ++ flat_map created_of os.
Proof.
  revert st. induction items as [|it rest IH]; intros st; simpl.
  - rewrite !app_nil_r. auto.
  - rewrite process_item_classify.
    destruct (classify (db st) it) as [o cat'] eqn:Hcl. simpl.
    destruct (IH (mkBatch (existing_product_ids st ++ existing_of o)
                          (problematic_product_ids st ++ problematic_of o)
                          (product_instances_list st ++ created_of o) cat'))
      as (H1 & H2 & H3).
    cbn [db existing_product_ids problematic_product_ids product_instances_list] in *.
    rewrite H1, H2, H3, <- !app_assoc. auto.
Qed.

Lemma serialize_ok (p d : Product) : serialize p = Ok d -> d = p.
Proof. unfold serialize. destruct (representable p); [|discriminate]. injection 1 as <-. reflexivity. Qed.

Lemma outcomes_created_id (cat : gmap string Product) (items : list element) :
  Forall2 (fun it o => forall p, o = Created p ->
             product_id p = Some (pk_value (get_text (find it (g "id")) None)))
          items (outcomes cat items).
Proof.
  revert cat. induction items as [|it rest IH]; intros cat; simpl; [constructor|].
  destruct (classify cat it) as [o cat'] eqn:Hcl. constructor; [|apply IH].
  intros p ->. unfold classify in Hcl.
  destruct (create_product_instance it cat) as [[p0 c0]|e] eqn:Hc.
  - pose proof (create_ok_inv _ _ _ _ Hc) as (Hpid & Hnone & _).
    revert Hpid Hnone Hcl.
    destruct (get_text (find it (g "id")) None) as [pid|]; cbn [pk_value]; intros Hpid Hnone Hcl.
    + rewrite (exists_id_free _ _ Hnone), andb_false_r in Hcl.
      destruct (serialize p0) as [d|e] eqn:Hs; [|destruct (truthy (Some pid)); discriminate].
      apply serialize_ok in Hs as ->. injection Hcl as <- _. exact Hpid.
    + destruct (serialize p0) as [d|e] eqn:Hs; [|discriminate].
      apply serialize_ok in Hs as ->. injection Hcl as <- _. exact Hpid.
  - destruct (get_text (find it (g "id")) None) as [pid|];
      [destruct (truthy (Some pid) && exists_id cat pid); [|destruct (truthy (Some pid))]|];
      discriminate.
Qed.

(** C7: the lists a run returns are, in this order, the concatenations of
    the per-item outcomes of the items in document order. There is one
    outcome per item, and a created record is the one of its item: its id
    is the item's [g:id] text, or [""] when the item has none. *)
Theorem handle_uploaded_file_document_order (file : xml_file) (cat : gmap string Product)
  (root : element) ex pr cr (cat' : gmap string Product) :
  et_parse file = Some root ->
  handle_uploaded_file file cat = Ok (ex, pr, cr, cat') ->
  let os := outcomes cat (findall_channel_item root) in
  Forall2 (fun it o => forall p, o = Created p ->
             product_id p = Some (pk_value (get_text (find it (g "id")) None)))
          (findall_channel_item root) os /\
  ex = flat_map existing_of os /\ pr = flat_map problematic_of os /\
  cr = flat_map created_of os.
Proof.
  intros Hr Hh. unfold handle_uploaded_file in Hh. rewrite Hr in Hh.
  injection Hh as Hex Hpr Hcr _.
  destruct (fold_process_items (findall_channel_item root) (mkBatch [] [] [] cat))
    as (H1 & H2 & H3).
  cbn [db existing_product_ids problematic_product_ids product_instances_list] in *.
  split; [apply outcomes_created_id|].
  rewrite <- Hex, <- Hpr, <- Hcr. auto.
Qed.













End Proofs.

(** ** Properties of the views, the e-mail task and the loop as a whole. *)
Section MoreProofs.
Context `{PyRuntime}.
Local Open Scope list_scope.

Lemma notify_failure_sent (ba : notification_data -> bool) user file_name error
  (all_admins : list CustomUser) (q : list notification_data) :
  notify_failure_to_admins ba user file_name error all_admins q =
  (q ++ List.filter ba (map (fun admin => NotifyFailure (email user) (username user) (email admin)
                                       file_name error) all_admins), None).
Proof.
  revert q. induction all_admins as [|a rest IH]; intros q; simpl.
  - rewrite app_nil_r. reflexivity.
  - unfold send. destruct (ba _); rewrite IH; [rewrite <- app_assoc|]; reflexivity.
Qed.

Lemma notify_products_of_admin_split (ba : notification_data -> bool) user file_name admin
  existing problematic (products : list Product) (q : list notification_data) :
  exists sent rest,
    map (fun product => NotifySuccess (email user) (username user) (email admin)
                          file_name existing problematic product) products = sent ++ rest /\
    Forall (fun d => ba d = true) sent /\
    notify_products_of_admin ba user file_name admin existing problematic products q =
      (q ++ sent, match rest with [] => None | _ => Some BrokerError end) /\
    match rest with [] => True | d :: _ => ba d = false end.
Proof.
  revert q. induction products as [|pr prs IH]; intros q; simpl.
  - exists [], []. rewrite !app_nil_r. exact (conj eq_refl (conj (List.Forall_nil _) (conj eq_refl I))).
  - unfold send. destruct (ba _) eqn:Hba.
    + destruct (IH (q ++ [NotifySuccess (email user) (username user) (email admin) file_name
                         existing problematic pr])) as (sent & rest & Hm & Hf & Hn & Hr).
      exists (NotifySuccess (email user) (username user) (email admin) file_name
                existing problematic pr :: sent), rest.
      rewrite Hm, Hn, <- app_assoc. auto.
    + exists [], (NotifySuccess (email user) (username user) (email admin) file_name
                   existing problematic pr
                   :: map (fun product => NotifySuccess (email user) (username user) (email admin)
                          file_name existing problematic product) prs).
      rewrite app_nil_r. auto.
Qed.

Lemma notify_admins_for_products_split (ba : notification_data -> bool) user file_name
  products existing problematic (all_admins : list CustomUser) (q : list notification_data) :
  exists sent rest,
    flat_map (fun admin => map (fun product =>
       NotifySuccess (email user) (username user) (email admin) file_name
                     existing problematic product) products) all_admins = sent ++ rest /\
    Forall (fun d => ba d = true) sent /\
    notify_admins_for_products ba user file_name products existing problematic all_admins q =
      (q ++ sent, match rest with [] => None | _ => Some BrokerError end) /\
    match rest with [] => True | d :: _ => ba d = false end.
Proof.
  revert q. induction all_admins as [|a admins IH]; intros q; simpl.
  - exists [], []. rewrite !app_nil_r. exact (conj eq_refl (conj (List.Forall_nil _) (conj eq_refl I))).
  - destruct (notify_products_of_admin_split ba user file_name a existing problematic products q)
      as (sent1 & rest1 & Hm1 & Hf1 & Hn1 & Hr1).
    rewrite Hn1, Hm1. destruct rest1 as [|d rest1].
    + destruct (IH (q ++ sent1)) as (sent2 & rest2 & Hm2 & Hf2 & Hn2 & Hr2).
      exists (sent1 ++ sent2), rest2. rewrite Hm2, Hn2, !app_nil_r, !app_assoc.
      split; [reflexivity|]. split; [apply Forall_app; auto|]. auto.
    + exists sent1, (d :: rest1 ++ flat_map (fun admin => map (fun product =>
         NotifySuccess (email user) (username user) (email admin) file_name
                       existing problematic product) products) admins).
      rewrite <- app_assoc. auto.
Qed.


Lemma all_admins_of_in (users : list UserRow) (a : CustomUser) :
  In a (all_admins_of users) ->
  exists r, In r users /\ is_superuser r = true /\ is_staff r = true /\ row_user r = a.
Proof.
  unfold all_admins_of. intros Ha. apply in_map_iff in Ha as (r & <- & Hr).
  apply filter_In in Hr as [Hr Hflags]. apply andb_true_iff in Hflags as [Hsu Hst].
  eauto 6.
Qed.

Lemma notify_split_failed (ba : notification_data -> bool) (full sent rest : list notification_data)
  (d : notification_data) :
  full = sent ++ rest -> Forall (fun d => ba d = true) sent -> In d full -> ba d = false ->
  rest <> [].
Proof.
  intros -> Hs Hd Hba ->. rewrite app_nil_r in Hd.
  rewrite List.Forall_forall in Hs. specialize (Hs d Hd). congruence.
Qed.


(** X2: on a document that does not parse, [upload_products] answers 400 with
    [str(e)], leaves the table unchanged, and enqueues only failure payloads:
    those the broker accepts, one per admin, in admin order. *)
Theorem upload_products_parse_error (ba : notification_data -> bool)
  (file_name_of : xml_file -> string) (exc_str : PyExc -> string) (f : xml_file)
  (user : CustomUser) (users : list UserRow) (cat : gmap string Product)
  (q : list notification_data) :
  file_name_of f <> "" -> et_parse f = None ->
  upload_products ba file_name_of exc_str (Some f) user users cat q =
  (mkResponse 400 (JsonBody [("error", exc_str ET_ParseError)]), cat,
   q ++ List.filter ba (map (fun admin => NotifyFailure (email user) (username user) (email admin)
                                             (file_name_of f) (exc_str ET_ParseError))
                            (all_admins_of users))).
Proof.
  intros Hn Hp. unfold upload_products. apply String.eqb_neq in Hn. rewrite Hn.
  assert (Hh : handle_uploaded_file f cat = Raise ET_ParseError).
  { unfold handle_uploaded_file. rewrite Hp. reflexivity. }
  rewrite Hh. cbv beta zeta. rewrite notify_failure_sent. reflexivity.
Qed.

(** X3: when the document parses, [upload_products] answers 201 exactly when
    the broker accepts every success payload. It then returns the table
    [handle_uploaded_file] left and enqueues the N x M success payloads and
    nothing else. *)
Theorem upload_products_created (ba : notification_data -> bool)
  (file_name_of : xml_file -> string) (exc_str : PyExc -> string) (f : xml_file)
  (user : CustomUser) (users : list UserRow) (cat : gmap string Product)
  (q : list notification_data) ex pr cr (cat' : gmap string Product) :
  file_name_of f <> "" -> handle_uploaded_file f cat = Ok (ex, pr, cr, cat') ->
  let full := flat_map (fun admin => map (fun product =>
                 NotifySuccess (email user) (username user) (email admin) (file_name_of f)
                               ex pr product) cr) (all_admins_of users) in
  (status_code (fst (fst (upload_products ba file_name_of exc_str (Some f) user users cat q)))
     = 201%Z <-> Forall (fun d => ba d = true) full) /\
  (Forall (fun d => ba d = true) full ->
   upload_products ba file_name_of exc_str (Some f) user users cat q =
   (mkResponse 201 (JsonBody [("message", "Products uploaded successfully")]), cat', q ++ full)).
Proof.
  intros Hn Hh. cbv zeta. unfold upload_products. apply String.eqb_neq in Hn. rewrite Hn, Hh.
  cbv beta zeta.
  destruct (notify_admins_for_products_split ba user (file_name_of f) cr ex pr
              (all_admins_of users) q) as (sent & rest & Hm & Hf & Hnot & Hr).
  rewrite Hnot, Hm. destruct rest as [|d rest].
  - rewrite app_nil_r. split; [tauto|reflexivity].
  - rewrite notify_failure_sent. cbn [fst status_code].
    assert (Hno : ~ Forall (fun d => ba d = true) (sent ++ d :: rest)).
    { intros Hall. apply Forall_app in Hall as [_ Hall]. inversion Hall. congruence. }
    split; [split; [discriminate|tauto]|tauto].
Qed.

(** X4: when the broker refuses a success payload, [upload_products] answers
    400 although the records were created. The table keeps them, and the
    failure payloads follow the success payloads already enqueued. *)
Theorem upload_products_notify_error_keeps_records (ba : notification_data -> bool)
  (file_name_of : xml_file -> string) (exc_str : PyExc -> string) (f : xml_file)
  (user : CustomUser) (users : list UserRow) (cat : gmap string Product)
  (q : list notification_data) ex pr cr (cat' : gmap string Product) (d : notification_data) :
  file_name_of f <> "" -> handle_uploaded_file f cat = Ok (ex, pr, cr, cat') ->
  In d (flat_map (fun admin => map (fun product =>
          NotifySuccess (email user) (username user) (email admin) (file_name_of f)
                        ex pr product) cr) (all_admins_of users)) ->
  ba d = false ->
  exists sent rest,
    flat_map (fun admin => map (fun product =>
       NotifySuccess (email user) (username user) (email admin) (file_name_of f)
                     ex pr product) cr) (all_admins_of users) = sent ++ rest /\
    Forall (fun d => ba d = true) sent /\
    upload_products ba file_name_of exc_str (Some f) user users cat q =
    (mkResponse 400 (JsonBody [("error", exc_str BrokerError)]), cat',
     q ++ sent ++ List.filter ba (map (fun admin => NotifyFailure (email user) (username user)
                                        (email admin) (file_name_of f) (exc_str BrokerError))
                                     (all_admins_of users))).
Proof.
  intros Hn Hh Hd Hba. unfold upload_products. apply String.eqb_neq in Hn. rewrite Hn, Hh.
  cbv beta zeta.
  destruct (notify_admins_for_products_split ba user (file_name_of f) cr ex pr
              (all_admins_of users) q) as (sent & rest & Hm & Hf & Hnot & Hr).
  pose proof (notify_split_failed ba _ sent rest d Hm Hf Hd Hba) as Hne.
  exists sent, rest. split; [exact Hm|]. split; [exact Hf|].
  rewrite Hnot. destruct rest as [|d' rest]; [congruence|].
  rewrite notify_failure_sent, app_assoc. reflexivity.
Qed.

(** X5: every payload [upload_products] adds to the queue is addressed to the
    e-mail of a user row that is both superuser and staff. *)
Theorem upload_products_only_admins (ba : notification_data -> bool)
  (file_name_of : xml_file -> string) (exc_str : PyExc -> string) (file : option xml_file)
  (user : CustomUser) (users : list UserRow) (cat : gmap string Product)
  (q : list notification_data) (d : notification_data) :
  In d (snd (upload_products ba file_name_of exc_str file user users cat q)) ->
  In d q \/
  exists r, In r users /\ is_superuser r = true /\ is_staff r = true /\
            payload_admin_email d = email (row_user r).
Proof.
  unfold upload_products. destruct file as [f|]; [|cbn; auto].
  destruct (String.eqb (file_name_of f) ""); [cbn; auto|]. cbv beta zeta.
  assert (Hfail : forall e q0, In d (q0 ++ List.filter ba (map (fun admin =>
            NotifyFailure (email user) (username user) (email admin) (file_name_of f) (exc_str e))
            (all_admins_of users))) -> In d q0 \/
          exists r, In r users /\ is_superuser r = true /\ is_staff r = true /\
                    payload_admin_email d = email (row_user r)).
  { intros e q0 Hin. apply in_app_or in Hin as [Hin|Hin]; [auto|right].
    apply filter_In in Hin as [Hin _]. apply in_map_iff in Hin as (a & <- & Ha).
    apply all_admins_of_in in Ha as (r & Hr & Hsu & Hst & <-). eauto. }
  destruct (handle_uploaded_file f cat) as [[[[ex pr] cr] cat']|e].
  - destruct (notify_admins_for_products_split ba user (file_name_of f) cr ex pr
                (all_admins_of users) q) as (sent & rest & Hm & Hf & Hnot & _).
    assert (Hsent : forall d, In d sent -> exists r, In r users /\ is_superuser r = true /\
                      is_staff r = true /\ payload_admin_email d = email (row_user r)).
    { intros d0 Hin. assert (Hfull : In d0 (sent ++ rest)) by (apply in_or_app; auto).
      rewrite <- Hm in Hfull. apply in_flat_map in Hfull as (a & Ha & Hin').
      apply in_map_iff in Hin' as (p & <- & _).
      apply all_admins_of_in in Ha as (r & Hr & Hsu & Hst & <-). eauto 6. }
    rewrite Hnot. destruct rest as [|d' rest]; cbn [snd].
    + intros Hin. apply in_app_or in Hin as [Hin|Hin]; auto.
    + rewrite notify_failure_sent. cbn [snd]. intros Hin.
      destruct (Hfail BrokerError (q ++ sent) Hin) as [Hin'|]; auto.
      apply in_app_or in Hin' as [Hin'|Hin']; auto.
  - rewrite notify_failure_sent. cbn [snd]. apply Hfail.
Qed.

(** The four ways an iteration changes the loop state. *)
Lemma process_item_shape (st : Batch) (item : element) :
  (exists pid, exists_id (db st) pid = true /\
     process_item st item = mkBatch (existing_product_ids st ++ [pid]) (problematic_product_ids st)
                                    (product_instances_list st) (db st)) \/
  (exists p cat', create_product_instance item (db st) = Ok (p, cat') /\ serialize p = Ok p /\
     process_item st item = mkBatch (existing_product_ids st) (problematic_product_ids st)
                                    (product_instances_list st ++ [p]) cat') \/
  (exists p cat' e, create_product_instance item (db st) = Ok (p, cat') /\ serialize p = Raise e /\
     process_item st item =
     mkBatch (existing_product_ids st)
             (problematic_product_ids st ++
                (if truthy (get_text (find item (g "id")) None)
                 then [pk_value (get_text (find item (g "id")) None)] else []))
             (product_instances_list st) cat') \/
  (exists l, process_item st item = mkBatch (existing_product_ids st)
                                    (problematic_product_ids st ++ l)
                                    (product_instances_list st) (db st)).
Proof.
  destruct (create_product_instance item (db st)) as [[p cat']|e] eqn:Hc.
  - destruct (serialize p) as [d|e] eqn:Hs.
    + right; left. pose proof (serialize_ok _ _ Hs) as ->. exists p, cat'.
      split; [reflexivity|]. split; [exact Hs|]. exact (process_item_created st item p cat' p Hc Hs).
    + right; right; left. exists p, cat', e. split; [reflexivity|]. split; [exact Hs|].
      exact (process_item_unserializable st item p cat' e Hc Hs).
  - unfold process_item. rewrite Hc.
    destruct (get_text (find item (g "id")) None) as [pid|].
    + destruct (truthy (Some pid) && exists_id (db st) pid) eqn:E.
      * left. apply andb_true_iff in E as [_ E]. eauto.
      * right; right; right. destruct (truthy (Some pid)); [eauto|].
        exists []. rewrite app_nil_r. destruct st; reflexivity.
    + right; right; right. exists []. rewrite app_nil_r. destruct st; reflexivity.
Qed.

Lemma batch_inv_init (cat : gmap string Product) : batch_inv cat (mkBatch [] [] [] cat).
Proof.
  unfold batch_inv. cbn. split; [auto|]. split; [auto|]. split; [tauto|].
  split; [constructor|tauto].
Qed.

(** Inserting a row under an id free in the table keeps the first and last
    parts of the invariant. *)
Lemma batch_inv_insert_keep (cat : gmap string Product) (st : Batch) (pk : string) (p : Product) :
  batch_inv cat st -> db st !! pk = None ->
  cat !! pk = None /\
  (forall k v, cat !! k = Some v -> (<[pk := p]> (db st)) !! k = Some v) /\
  (forall q, In q (product_instances_list st) ->
     exists pid, product_id q = Some pid /\ cat !! pid = None /\
                 (<[pk := p]> (db st)) !! pid = Some q /\ serialize q = Ok q) /\
  (forall q, In q (product_instances_list st) -> product_id q <> Some pk) /\
  (forall k, In k (existing_product_ids st) -> is_Some ((<[pk := p]> (db st)) !! k)).
Proof.
  intros (Hkeep & _ & Hcr & _ & Hex) Hfree.
  assert (Hcat : cat !! pk = None).
  { destruct (cat !! pk) eqn:E; [|reflexivity]. apply Hkeep in E. congruence. }
  split; [exact Hcat|]. split; [|split; [|split]].
  - intros k v Hk. rewrite lookup_insert_ne; [auto|]. intros ->. apply Hkeep in Hk. congruence.
  - intros q Hq. destruct (Hcr q Hq) as (pid & Hid & Hc & Hdb & Hs).
    exists pid. split; [exact Hid|]. split; [exact Hc|]. split; [|exact Hs].
    rewrite lookup_insert_ne; [exact Hdb|]. intros ->. congruence.
  - intros q Hq Hid. destruct (Hcr q Hq) as (pid & Hid' & _ & Hdb & _).
    rewrite Hid in Hid'. injection Hid' as <-. congruence.
  - intros k Hk. destruct (Hex k Hk) as [v Hv]. rewrite lookup_insert_is_Some'. auto.
Qed.

Lemma batch_inv_step (cat : gmap string Product) (st : Batch) (item : element) :
  batch_inv cat st -> batch_inv cat (process_item st item).
Proof.
  intros Hinv. pose proof Hinv as (Hkeep & Hfrom & Hcr & Hnd & Hex).
  destruct (process_item_shape st item)
    as [(pid & Hpid & ->)|[(p & cat' & Hc & Hs & ->)|[(p & cat' & e & Hc & Hs & ->)|(l & ->)]]].
  - unfold batch_inv; cbn. split; [exact Hkeep|]. split; [exact Hfrom|].
    split; [exact Hcr|]. split; [exact Hnd|].
    intros k Hk. apply in_app_or in Hk as [Hk|[<-|[]]]; [auto|].
    unfold exists_id in Hpid. apply bool_decide_eq_true in Hpid. exact Hpid.
  - pose proof (create_ok_inv _ _ _ _ Hc) as (Hid & Hnone & ->).
    set (pk := pk_value (get_text (find item (g "id")) None)) in *.
    destruct (batch_inv_insert_keep cat st pk p Hinv Hnone)
      as (Hcat & Hkeep' & Hcr' & Hfresh & Hex').
    unfold batch_inv; cbn. split; [exact Hkeep'|]. split; [|split; [|split]].
    + intros k v Hk. destruct (decide (pk = k)) as [<-|Hne].
      * rewrite lookup_insert_eq in Hk. injection Hk as <-. right.
        split; [exact Hcat|]. split; [exact Hid|]. left. apply in_or_app; right; left; reflexivity.
      * rewrite lookup_insert_ne in Hk by exact Hne.
        destruct (Hfrom k v Hk) as [Hc'|(Hc' & Hk' & [Hin|Hun])]; [left; exact Hc'| |].
        -- right. split; [exact Hc'|]. split; [exact Hk'|]. left. apply in_or_app; left; exact Hin.
        -- right. split; [exact Hc'|]. split; [exact Hk'|]. right. exact Hun.
    + intros q Hq. apply in_app_or in Hq as [Hq|[<-|[]]]; [exact (Hcr' q Hq)|].
      exists pk. split; [exact Hid|]. split; [exact Hcat|]. split; [apply lookup_insert_eq|exact Hs].
    + rewrite map_app. apply NoDup_app. split; [exact Hnd|]. split; [|apply NoDup_singleton].
      intros x Hx. cbn. rewrite list_elem_of_singleton. intros Hx'. rewrite Hx' in Hx.
      apply list_elem_of_In, in_map_iff in Hx as (q & Hq & Hin).
      rewrite Hid in Hq. exact (Hfresh q Hin Hq).
    + exact Hex'.
  - pose proof (create_ok_inv _ _ _ _ Hc) as (Hid & Hnone & ->).
    assert (Hrep : pk_value (get_text (find item (g "id")) None) <> "" ->
                   In (pk_value (get_text (find item (g "id")) None))
                      (problematic_product_ids st ++
                         (if truthy (get_text (find item (g "id")) None)
                          then [pk_value (get_text (find item (g "id")) None)] else []))).
    { destruct (get_text (find item (g "id")) None) as [pid|]; cbn [pk_value]; intros Hne;
        [|congruence].
      apply truthy_some in Hne as Ht. rewrite Ht. apply in_or_app; right; left; reflexivity. }
    destruct (batch_inv_insert_keep cat st _ p Hinv Hnone) as (Hcat & Hkeep' & Hcr' & _ & Hex').
    unfold batch_inv; cbn [db existing_product_ids problematic_product_ids product_instances_list].
    split; [exact Hkeep'|]. split; [|split; [exact Hcr'|split; [exact Hnd|exact Hex']]].
    intros k v Hk. destruct (decide (pk_value (get_text (find item (g "id")) None) = k)) as [Heq|Hne].
    + subst k. rewrite lookup_insert_eq in Hk. injection Hk as <-. right.
      split; [exact Hcat|]. split; [exact Hid|]. right. split; [eauto|exact Hrep].
    + rewrite lookup_insert_ne in Hk by exact Hne.
      destruct (Hfrom k v Hk) as [Hc'|(Hc' & Hk' & [Hin|(Hun & Hpr)])]; [left; exact Hc'|right..].
      * split; [exact Hc'|]. split; [exact Hk'|]. left; exact Hin.
      * split; [exact Hc'|]. split; [exact Hk'|]. right. split; [exact Hun|].
        intros Hne'. apply in_or_app. left. exact (Hpr Hne').
  - unfold batch_inv; cbn [db existing_product_ids problematic_product_ids product_instances_list].
    split; [exact Hkeep|]. split; [|split; [exact Hcr|split; [exact Hnd|exact Hex]]].
    intros k v Hk.
    destruct (Hfrom k v Hk) as [Hc'|(Hc' & Hk' & [Hin|(Hun & Hpr)])]; [left; exact Hc'|right..].
    + split; [exact Hc'|]. split; [exact Hk'|]. left; exact Hin.
    + split; [exact Hc'|]. split; [exact Hk'|]. right. split; [exact Hun|].
      intros Hne. apply in_or_app. left. exact (Hpr Hne).
Qed.
Lemma batch_inv_fold (cat : gmap string Product) (items : list element) (st : Batch) :
  batch_inv cat st -> batch_inv cat (fold_left process_item items st).
Proof.
  revert st. induction items as [|it rest IH]; intros st Hst; [exact Hst|].
  apply IH, batch_inv_step, Hst.
Qed.

Lemma handle_uploaded_file_inv (file : xml_file) (cat : gmap string Product) ex pr cr
  (cat' : gmap string Product) :
  handle_uploaded_file file cat = Ok (ex, pr, cr, cat') ->
  batch_inv cat (mkBatch ex pr cr cat').
Proof.
  unfold handle_uploaded_file. destruct (et_parse file) as [root|]; [|discriminate].
  intros Hh. injection Hh as <- <- <- <-.
  pose proof (batch_inv_fold cat (findall_channel_item root) _ (batch_inv_init cat)) as Hi.
  destruct (fold_left process_item (findall_channel_item root) (mkBatch [] [] [] cat)).
  exact Hi.
Qed.

(** X9: after a run, the table is the table before plus the rows the run
    inserted. Each created record is stored under its own id, an id that was
    free before the run, and the created ids are pairwise distinct. Every
    other inserted row is one whose serialization raised after the INSERT:
    it stays in the table, and its id, when not empty, is on the problematic
    list. *)
Theorem handle_uploaded_file_table_growth (file : xml_file) (cat : gmap string Product)
  ex pr cr (cat' : gmap string Product) :
  handle_uploaded_file file cat = Ok (ex, pr, cr, cat') ->
  (forall p, In p cr -> exists pid, product_id p = Some pid /\ cat !! pid = None /\
                                    cat' !! pid = Some p) /\
  NoDup (map product_id cr) /\
  (forall k v, cat' !! k = Some v ->
     cat !! k = Some v \/
     (cat !! k = None /\ product_id v = Some k /\
      (In v cr \/ ((exists e, serialize v = Raise e) /\ (k <> "" -> In k pr))))).
Proof.
  intros Hh. destruct (handle_uploaded_file_inv _ _ _ _ _ _ Hh) as (_ & Hfrom & Hcr & Hnd & _).
  cbn in *. split; [|split; [exact Hnd|exact Hfrom]].
  intros p Hp. destruct (Hcr p Hp) as (pid & Hid & Hc & Hdb & _). eauto.
Qed.

(** X11: after a run, [product_detail] answers 200 with the record for the id
    of every created record. For every id reported existing it finds the
    record: it answers 200, or 400 when the record cannot be serialized,
    never 404. *)
Theorem product_detail_after_upload (exc_str : PyExc -> string) (file : xml_file)
  (cat : gmap string Product) ex pr cr (cat' : gmap string Product) :
  handle_uploaded_file file cat = Ok (ex, pr, cr, cat') ->
  (forall p, In p cr -> exists pid, product_id p = Some pid /\
                                    product_detail exc_str cat' pid = mkResponse 200 (RecordBody p)) /\
  (forall pid, In pid ex -> status_code (product_detail exc_str cat' pid) = 200%Z \/
                            status_code (product_detail exc_str cat' pid) = 400%Z).
Proof.
  intros Hh. destruct (handle_uploaded_file_inv _ _ _ _ _ _ Hh) as (_ & _ & Hcr & _ & Hex).
  cbn in *. split.
  - intros p Hp. destruct (Hcr p Hp) as (pid & Hid & _ & Hdb & Hs).
    exists pid. split; [exact Hid|]. unfold product_detail. rewrite Hdb, Hs. reflexivity.
  - intros pid Hp. destruct (Hex pid Hp) as [v Hv]. unfold product_detail. rewrite Hv.
    destruct (serialize v); [left|right]; reflexivity.
Qed.

Lemma classify_unreported (cat : gmap string Product) (item : element) :
  fst (classify cat item) = Unreported -> truthy (get_text (find item (g "id")) None) = false.
Proof.
  unfold classify. destruct (get_text (find item (g "id")) None) as [pid|]; [|reflexivity].
  destruct (truthy (Some pid) && exists_id cat pid); [discriminate|].
  destruct (create_product_instance item cat) as [[p c]|e];
    [destruct (serialize p); [discriminate|]|];
    destruct (truthy (Some pid)); [discriminate|reflexivity|discriminate|reflexivity].
Qed.

Lemma outcomes_counts (cat : gmap string Product) (items : list element) :
  let os := outcomes cat items in
  (length (flat_map existing_of os) + length (flat_map problematic_of os)
   + length (flat_map created_of os) <= length items)%nat /\
  (Forall (fun it => truthy (get_text (find it (g "id")) None) = true) items ->
   length (flat_map existing_of os) + length (flat_map problematic_of os)
   + length (flat_map created_of os) = length items).
Proof.
  revert cat. induction items as [|it rest IH]; intros cat; [cbn; lia|].
  cbn [outcomes]. destruct (classify cat it) as [o cat'] eqn:Hcl.
  destruct (IH cat') as [Hle Heq]. cbn [flat_map length]. rewrite !length_app.
  split.
  - destruct o; cbn; lia.
  - intros Hall. inversion Hall as [|? ? Hit Hrest]; subst.
    specialize (Heq Hrest). destruct o; cbn; try lia.
    pose proof (classify_unreported cat it) as Hu. rewrite Hcl in Hu.
    specialize (Hu eq_refl). congruence.
Qed.

(** X10: the three returned lists together have at most one entry per item;
    exactly one per item when every item has a non-empty id. *)
Theorem handle_uploaded_file_counts (file : xml_file) (cat : gmap string Product)
  (root : element) ex pr cr (cat' : gmap string Product) :
  et_parse file = Some root ->
  handle_uploaded_file file cat = Ok (ex, pr, cr, cat') ->
  (length ex + length pr + length cr <= length (findall_channel_item root))%nat /\
  (Forall (fun it => truthy (get_text (find it (g "id")) None) = true) (findall_channel_item root) ->
   length ex + length pr + length cr = length (findall_channel_item root)).
Proof.
  intros Hr Hh. unfold handle_uploaded_file in Hh. rewrite Hr in Hh.
  injection Hh as Hex Hpr Hcr _.
  destruct (fold_process_items (findall_channel_item root) (mkBatch [] [] [] cat))
    as (H1 & H2 & H3).
  cbn [db existing_product_ids problematic_product_ids product_instances_list] in *.
  rewrite <- Hex, <- Hpr, <- Hcr, H1, H2, H3. cbn [app].
  apply outcomes_counts.
Qed.

(** Case analysis on every [let*] of [build_product], keeping the equations. *)
Ltac split_binds_eqn :=
  repeat match goal with
  | |- context [bind ?m _] =>
      lazymatch m with
      | Ok _ => cbn [bind]
      | Raise _ => cbn [bind]
      | _ => let E := fresh "E" in destruct m eqn:E
      end
  end; cbn [bind].

Lemma build_product_ok_fields (item : element) (p : Product) :
  build_product item = Ok p ->
  product_id p = get_text (find item (g "id")) None /\
  title p = get_text (find item "title") None /\
  product_type p = get_text (find item (g "product_type")) None /\
  link p = get_text (find item "link") None /\
  description p = get_text (find item "description") None /\
  image_link p = get_text (find item (g "image_link")) None /\
  get_float_text (find item (g "price")) None = Ok (price p) /\
  availability p = get_text (find item (g "availability")) None /\
  brand p = get_text (find item (g "brand")) None /\
  gtin p = get_text (find item (g "gtin")) None /\
  item_group_id p = get_text (find item (g "item_group_id")) None /\
  condition p = get_text (find item (g "condition")) None /\
  age_group p = get_text (find item (g "age_group")) None /\
  color p = get_text (find item (g "color")) None /\
  gender p = get_text (find item (g "gender")) None /\
  adult p = match get_text (find item (g "adult")) (Some "no") with
            | Some s => if truthy (Some s) then String.eqb (py_lower s) "yes" else false
            | None => false
            end /\
  iphone_app_name p = get_attribute (find_applink item "iphone_app_name") "content" None /\
  iphone_app_store_id p = get_attribute (find_applink item "iphone_app_store_id") "content" None /\
  iphone_url p = get_attribute (find_applink item "iphone_url") "content" None.
Proof.
  unfold build_product. split_binds_eqn; intros Hb; try discriminate.
  injection Hb as <-. cbn [product_id title product_type link description image_link price
    availability brand gtin item_group_id condition age_group color gender adult
    iphone_app_name iphone_app_store_id iphone_url].
  repeat split; assumption || reflexivity.
Qed.

Lemma get_float_text_no_text (e : option element) :
  get_text e None = None -> get_float_text e None = Ok None.
Proof.
  unfold get_text, get_float_text. destruct e as [el|]; [|reflexivity].
  destruct (el_text el); [discriminate|reflexivity].
Qed.

Lemma process_item_create_raise (st : Batch) (item : element) :
  (exists e, create_product_instance item (db st) = Raise e) ->
  product_instances_list (process_item st item) = product_instances_list st /\
  db (process_item st item) = db st.
Proof.
  intros [e Hc]. unfold process_item. rewrite Hc.
  destruct (get_text (find item (g "id")) None) as [pid|];
    [destruct (truthy (Some pid) && exists_id (db st) pid); [|destruct (truthy (Some pid))]|];
    auto.
Qed.

(** X12: an item missing one of the fourteen NOT NULL fields other than the
    primary key (absent element or element without text) is never created.
    The loop adds no record for it and leaves the table unchanged. *)
Theorem missing_required_field_not_created (item : element) (t : string) :
  In t ["title"; g "product_type"; "link"; "description"; g "image_link"; g "price";
        g "availability"; g "brand"; g "gtin"; g "item_group_id"; g "condition";
        g "age_group"; g "color"; g "gender"] ->
  get_text (find item t) None = None ->
  (forall cat, exists e, create_product_instance item cat = Raise e) /\
  (forall st, product_instances_list (process_item st item) = product_instances_list st /\
              db (process_item st item) = db st).
Proof.
  intros Hin Hnone.
  assert (Hc : forall cat, exists e, create_product_instance item cat = Raise e).
  { intros cat. unfold create_product_instance.
    destruct (build_product item) as [p|e] eqn:Hb; cbn [bind]; [|eauto].
    unfold objects_create. cbv zeta.
    destruct (negb (db_values_ok _)); [eauto|].
    apply build_product_ok_fields in Hb
      as (_ & H2 & H3 & H4 & H5 & H6 & H7 & H8 & H9 & H10 & H11 & H12 & H13 & H14 & H15 & _).
    assert (Hnn : not_null_ok (with_pk p (pk_value (product_id p))) = false).
    { unfold not_null_ok, with_pk.
      cbn [product_id title product_type link description image_link price availability brand
           gtin item_group_id condition age_group color gender].
      rewrite H2, H3, H4, H5, H6, H8, H9, H10, H11, H12, H13, H14, H15.
      cbn [In] in Hin.
      repeat destruct Hin as [<-|Hin]; try contradiction;
        try (rewrite (get_float_text_no_text _ Hnone) in H7; injection H7 as <-);
        rewrite ?Hnone; cbn [is_Some_b]; rewrite ?andb_false_r; reflexivity. }
    rewrite Hnn. eauto. }
  split; [exact Hc|]. intros st. apply process_item_create_raise, Hc.
Qed.

(** X13: [adult] is true exactly when the item has a [g:adult] text whose
    lower-cased form is ["yes"]. *)
Theorem build_product_adult (item : element) (p : Product) :
  build_product item = Ok p ->
  (adult p = true <-> exists s, get_text (find item (g "adult")) None = Some s /\ py_lower s = "yes").
Proof.
  intros Hb. apply build_product_ok_fields in Hb as (_ & _ & _ & _ & _ & _ & _ & _ & _ & _ & _ & _ & _ &
    _ & _ & Had & _). rewrite Had. unfold get_text.
  destruct (find item (g "adult")) as [el|]; [destruct (el_text el) as [s|]|].
  - destruct (truthy (Some s)) eqn:T.
    + rewrite String.eqb_eq. split; [eauto|]. intros (s0 & Hs & Hl). injection Hs as <-. exact Hl.
    + split; [discriminate|]. intros (s0 & Hs & Hl). injection Hs as <-.
      cbn in T. apply negb_false_iff, String.eqb_eq in T. subst. discriminate.
  - cbn. split; [discriminate|]. intros (s0 & Hs & _). discriminate.
  - cbn. split; [discriminate|]. intros (s0 & Hs & _). discriminate.
Qed.

Lemma get_float_text_raise (e : option element) (d : option pyfloat) (x : PyExc) :
  get_float_text e d = Raise x -> x = ValueError \/ x = IndexError.
Proof.
  unfold get_float_text. repeat case_match; try discriminate; intros Hx; injection Hx as <-; auto.
Qed.

Lemma py_int_call_raise (s : string) (x : PyExc) : py_int_call s = Raise x -> x = ValueError.
Proof. unfold py_int_call. destruct (py_int s); [discriminate|]. intros Hx. injection Hx as <-. reflexivity. Qed.

(** X14: mapping an item raises only [ValueError] or [IndexError], and it
    succeeds exactly when the seven numeric reads succeed. *)
Theorem build_product_numeric_failures (item : element) :
  (forall e, build_product item = Raise e -> e = ValueError \/ e = IndexError) /\
  is_ok (build_product item) =
    is_ok (get_float_text (find item (g "price")) None)
    && is_ok (get_float_text (find item (g "sale_price")) None)
    && is_ok (get_float_text (find item (g "oldprice")) None)
    && is_ok (get_float_text (find item (g "finalprice")) None)
    && is_ok (py_int_call (or_zero (get_text (find item (g "quantity")) (Some "0"))))
    && is_ok (py_int_call (or_zero (get_text (find item "additional_images_count") (Some "0"))))
    && is_ok (get_float_text (find item "options_percentage") None).
Proof.
  split.
  - intros e. unfold build_product. split_binds_eqn; intros Hr; try discriminate;
      injection Hr as <-;
      first [ eapply get_float_text_raise; eassumption
            | left; eapply py_int_call_raise; eassumption ].
  - unfold build_product. split_binds_eqn; reflexivity.
Qed.

Lemma find_applink_none (item : element) (v : string) :
  Forall (fun c => el_tag c <> "appLink") (el_children item) -> find_applink item v = None.
Proof.
  destruct item as [tg tx atr ch]. unfold find_applink. cbn [el_children].
  induction ch as [|c ch IH]; intros Hall; [reflexivity|].
  inversion Hall as [|? ? Hc Hrest]; subst. cbn.
  apply String.eqb_neq in Hc. rewrite Hc. cbn. apply IH, Hrest.
Qed.

(** X15: an item with no [appLink] child maps with the three [iphone_*] fields
    [None]. *)
Theorem build_product_no_applink (item : element) (p : Product) :
  Forall (fun c => el_tag c <> "appLink") (el_children item) ->
  build_product item = Ok p ->
  iphone_app_name p = None /\ iphone_app_store_id p = None /\ iphone_url p = None.
Proof.
  intros Hall Hb. apply build_product_ok_fields in Hb as (_ & _ & _ & _ & _ & _ & _ & _ & _ & _ &
    _ & _ & _ & _ & _ & _ & H1 & H2 & H3).
  rewrite H1, H2, H3, !find_applink_none by exact Hall. auto.
Qed.

(** X16: [login] answers 404 exactly when the username is missing or no user
    has it. *)
Theorem login_not_found (check_password : string -> string -> bool) (new_token_key : string)
  (users : list UserRow) (tokens : gmap string string) (username password : option string) :
  status_code (fst (login check_password new_token_key users tokens username password)) = 404%Z <->
  match username with Some u => find_user users u = None | None => True end.
Proof.
  unfold login, authenticate. destruct username as [u|]; [|destruct password; cbn; tauto].
  destruct (find_user users u) as [r|] eqn:Hf.
  - destruct password as [pw|].
    + destruct (check_password (password_hash r) pw && is_active r).
      * destruct (tokens !! u); cbn; split; discriminate.
      * cbn. split; discriminate.
    + cbn. split; discriminate.
  - destruct password; cbn; tauto.
Qed.

(** X17: an inactive user gets 400 ["Invalid Password."] whatever the
    password, the right one included. *)
Theorem login_inactive_user (check_password : string -> string -> bool) (new_token_key : string)
  (users : list UserRow) (tokens : gmap string string) (u : string) (password : option string)
  (r : UserRow) :
  find_user users u = Some r -> is_active r = false ->
  login check_password new_token_key users tokens (Some u) password =
  (mkResponse 400 (JsonBody [("error", "Invalid Password.")]), tokens).
Proof.
  intros Hf Hia. unfold login, authenticate. rewrite Hf.
  destruct password as [pw|]; [rewrite Hia, andb_false_r|]; reflexivity.
Qed.

(** X18: logging in again with the same credentials gives the same response,
    the same token included, and leaves the token table as the first login
    left it. *)
Theorem login_idempotent (check_password : string -> string -> bool) (new_token_key : string)
  (users : list UserRow) (tokens : gmap string string) (username password : option string) :
  let '(response, tokens') := login check_password new_token_key users tokens username password in
  login check_password new_token_key users tokens' username password = (response, tokens').
Proof.
  destruct (login check_password new_token_key users tokens username password)
    as [resp tok] eqn:Hl.
  unfold login in *. destruct username as [u|].
  - destruct (authenticate check_password users (Some u) password) as [r|] eqn:Ha.
    + destruct (tokens !! u) as [k|] eqn:Ht; injection Hl as <- <-.
      * rewrite Ht. reflexivity.
      * rewrite lookup_insert_eq. reflexivity.
    + destruct (is_Some_b (find_user users u)); injection Hl as <- <-; reflexivity.
  - injection Hl as <- <-. reflexivity.
Qed.

Lemma str_app_assoc (a b c : string) : ((a ++ b) ++ c)%string = (a ++ (b ++ c))%string.
Proof. induction a as [|x a IH]; [reflexivity|]. exact (f_equal (String x) IH). Qed.

Lemma str_app_nil_r (a : string) : (a ++ "")%string = a.
Proof. induction a as [|x a IH]; [reflexivity|]. exact (f_equal (String x) IH). Qed.

Lemma str_app_inv_empty (a b : string) : (a ++ b)%string = a -> b = "".
Proof.
  induction a as [|x a IH]; cbn; [auto|]. intros Hs. injection Hs. exact IH.
Qed.

Lemma newline_app_nonempty (s : string) : (newline ++ s)%string <> "".
Proof. discriminate. Qed.


(** X20: the success e-mail has subject ["Product Upload Successful"], goes to
    the payload's admin e-mail, and starts with the message built for empty id
    lists. It equals that message exactly when both the existing and the
    problematic lists are empty. *)
Theorem send_notification_success_sections (product_items : Product -> list (string * string))
  user_email user_name admin_email file_name (existing problematic : list string) (product : Product) :
  let '(subject, to, message) :=
    send_notification product_items
      (NotifySuccess user_email user_name admin_email file_name existing problematic product) in
  let '(_, _, base) :=
    send_notification product_items
      (NotifySuccess user_email user_name admin_email file_name [] [] product) in
  subject = "Product Upload Successful" /\ to = admin_email /\
  (exists rest, message = (base ++ rest)%string) /\
  (message = base <-> existing = [] /\ problematic = []).
Proof.
  unfold send_notification.
  destruct existing as [|x ex], problematic as [|y pr]; cbv beta iota zeta;
    (split; [reflexivity|]); (split; [reflexivity|]).
  - split; [exists ""; symmetry; apply str_app_nil_r|tauto].
  - split; [eauto|]. split; [|intros [_ Hc]; discriminate].
    intros Hs. apply str_app_inv_empty in Hs. discriminate.
  - split; [eauto|]. split; [|intros [Hc _]; discriminate].
    intros Hs. apply str_app_inv_empty in Hs. discriminate.
  - rewrite str_app_assoc. split; [eauto|]. split; [|intros [Hc _]; discriminate].
    intros Hs. apply str_app_inv_empty in Hs. discriminate.
Qed.

Lemma filter_true_id {A} (l : list A) : List.filter (fun _ => true) l = l.
Proof. induction l as [|a l IH]; cbn; [reflexivity|]. rewrite IH. reflexivity. Qed.

(** X6: on a document that does not parse, with a broker that accepts
    everything, the e-mails the task sends are one per admin, in admin order,
    with subject ["Product Upload Failed"] and the admin's e-mail as
    recipient. *)
Theorem upload_products_parse_error_emails (product_items : Product -> list (string * string))
  (file_name_of : xml_file -> string) (exc_str : PyExc -> string) (f : xml_file)
  (user : CustomUser) (users : list UserRow) (cat : gmap string Product)
  (q : list notification_data) :
  file_name_of f <> "" -> et_parse f = None ->
  exists sent,
    snd (upload_products (fun _ => true) file_name_of exc_str (Some f) user users cat q) = q ++ sent /\
    map (fun d => fst (send_notification product_items d)) sent =
    map (fun admin => ("Product Upload Failed", email admin)) (all_admins_of users).
Proof.
  intros Hn Hp. unfold upload_products. apply String.eqb_neq in Hn. rewrite Hn.
  assert (Hh : handle_uploaded_file f cat = Raise ET_ParseError).
  { unfold handle_uploaded_file. rewrite Hp. reflexivity. }
  rewrite Hh. cbv beta zeta. rewrite notify_failure_sent, filter_true_id. cbn [snd].
  eexists. split; [reflexivity|]. rewrite map_map. apply map_ext. reflexivity.
Qed.

(** X7: for any broker, [notify_failure_to_admins] never raises and enqueues
    exactly the failure payloads the broker accepts, in admin order. *)
Theorem notify_failure_to_admins_filters_refused (ba : notification_data -> bool) (user : CustomUser)
  (file_name error : string) (all_admins : list CustomUser) (q : list notification_data) :
  notify_failure_to_admins ba user file_name error all_admins q =
  (q ++ List.filter ba (map (fun admin => NotifyFailure (email user) (username user) (email admin)
                                            file_name error) all_admins), None).
Proof. apply notify_failure_sent. Qed.

(** X8: for any broker, [notify_admins_for_products] enqueues a prefix of the
    admin x product payload list. All of that prefix was accepted. It raises
    exactly when the prefix is not the whole list, and then the first payload
    after it is the one refused. *)
Theorem notify_admins_for_products_prefix (ba : notification_data -> bool) (user : CustomUser)
  (file_name : string) (products : list Product) (existing problematic : list string)
  (all_admins : list CustomUser) (q : list notification_data) :
  exists sent rest,
    flat_map (fun admin => map (fun product =>
       NotifySuccess (email user) (username user) (email admin) file_name
                     existing problematic product) products) all_admins = sent ++ rest /\
    Forall (fun d => ba d = true) sent /\
    notify_admins_for_products ba user file_name products existing problematic all_admins q =
      (q ++ sent, match rest with [] => None | _ => Some BrokerError end) /\
    match rest with [] => True | d :: _ => ba d = false end.
Proof. apply notify_admins_for_products_split. Qed.

End MoreProofs.

Section AccountProofs.
Context `{PyRuntime}.
Local Open Scope list_scope.

Variable to_internal_value : list UserRow -> SignupData -> list (string * list string) + SignupData.
Variable make_password : string -> string.
Variable normalize_username : string -> string.
Variable normalize_email : string -> string.
Variable check_password : string -> string -> bool.
Variable new_token_key : string.

Lemma all_admins_of_app_nonadmin (users : list UserRow) (row : UserRow) :
  is_superuser row = false -> all_admins_of (users ++ [row]) = all_admins_of users.
Proof.
  intros Hs. unfold all_admins_of. rewrite List.filter_app. cbn. rewrite Hs. cbn.
  rewrite app_nil_r. reflexivity.
Qed.

Lemma create_shape (users : list UserRow) (vd : SignupData) (row : UserRow) :
  create make_password normalize_username normalize_email users vd = Some row ->
  exists u e pw, su_username vd = Some u /\ su_email vd = Some e /\ su_password vd = Some pw /\
    row = mkUserRow (mkUser (Some (normalize_email e)) (Some (normalize_username u)))
                    (make_password pw) true false false.
Proof.
  unfold create. destruct (su_username vd) as [u|], (su_email vd) as [e|], (su_password vd) as [pw|];
    intros Hc; try discriminate.
  cbv zeta in Hc. destruct (List.existsb _ users); [discriminate|].
  injection Hc as <-. exists u, e, pw. auto.
Qed.

Lemma existsb_false_forall {A} (f : A -> bool) (l : list A) :
  List.existsb f l = false -> forall x, In x l -> f x = false.
Proof.
  intros Hf x Hx. destruct (f x) eqn:Ex; [|reflexivity].
  assert (List.existsb f l = true) by (apply List.existsb_exists; eauto). congruence.
Qed.

Lemma existsb_true_of {A} (f : A -> bool) (l : list A) (x : A) :
  In x l -> f x = true -> List.existsb f l = true.
Proof. intros Hx Hf. apply List.existsb_exists. eauto. Qed.

Lemma existsb_false_of {A} (f : A -> bool) (l : list A) :
  (forall x, In x l -> f x = false) -> List.existsb f l = false.
Proof.
  intros Hf. induction l as [|x l IH]; [reflexivity|]. cbn.
  rewrite (Hf x (or_introl eq_refl)). apply IH. intros y Hy. apply Hf. right. exact Hy.
Qed.

Lemma validate_validated (users : list UserRow) (vd : SignupData) :
  validate users vd = Validated ->
  (forall r, In r users -> username (row_user r) <> su_username vd) /\
  (forall r, In r users -> email (row_user r) <> su_email vd) /\
  exists pw, su_password vd = Some pw /\ (4 <= String.length pw)%nat.
Proof.
  unfold validate. cbv zeta.
  destruct (List.existsb (fun r : UserRow => bool_decide (username (row_user r) = su_username vd)) users) eqn:Hu; [discriminate|].
  destruct (List.existsb (fun r : UserRow => bool_decide (email (row_user r) = su_email vd)) users) eqn:He; [discriminate|].
  destruct (su_password vd) as [pw|]; [|cbn; discriminate].
  destruct (String.length pw <? 4)%nat eqn:Hl; [discriminate|]. intros _.
  split; [|split].
  - intros r Hr. pose proof (existsb_false_forall _ _ Hu r Hr) as Hb. cbv beta in Hb.
    apply bool_decide_eq_false in Hb. exact Hb.
  - intros r Hr. pose proof (existsb_false_forall _ _ He r Hr) as Hb. cbv beta in Hb.
    apply bool_decide_eq_false in Hb. exact Hb.
  - exists pw. split; [reflexivity|]. apply Nat.ltb_ge. exact Hl.
Qed.

Lemma find_user_some (users : list UserRow) (u : string) (r : UserRow) :
  find_user users u = Some r -> In r users /\ username (row_user r) = Some u.
Proof.
  unfold find_user. intros Hf. apply List.find_some in Hf as [Hin Hb].
  split; [exact Hin|]. apply bool_decide_eq_true in Hb. exact Hb.
Qed.

Lemma find_user_app_fresh (users : list UserRow) (row : UserRow) (u : string) :
  (forall r, In r users -> username (row_user r) <> Some u) ->
  username (row_user row) = Some u ->
  find_user (users ++ [row]) u = Some row.
Proof.
  unfold find_user. induction users as [|r rest IH]; intros Hfresh Hrow; cbn.
  - rewrite bool_decide_eq_true_2 by exact Hrow. reflexivity.
  - rewrite bool_decide_eq_false_2 by (apply Hfresh; left; reflexivity).
    apply IH; [|exact Hrow]. intros r' Hr'. apply Hfresh. right. exact Hr'.
Qed.

Lemma authenticate_some (users : list UserRow) (u pw : string) (r : UserRow) :
  authenticate check_password users (Some u) (Some pw) = Some r ->
  find_user users u = Some r /\ username (row_user r) = Some u.
Proof.
  unfold authenticate. destruct (find_user users u) as [r'|] eqn:Hf; [|discriminate].
  destruct (check_password (password_hash r') pw && is_active r'); [|discriminate].
  intros Hr. injection Hr as <-. split; [reflexivity|]. exact (proj2 (find_user_some _ _ _ Hf)).
Qed.

(** X21: [signup] answers 201 or 409, or lets an exception escape; it never
    answers 400. On 201 it appends one active user row that is neither staff
    nor superuser. Otherwise the user table is unchanged, and the exception
    escapes only when the validated data has no password. The admin list never
    changes. *)
Theorem signup_outcome (users : list UserRow) (data : SignupData) :
  let '(response, users') :=
    signup to_internal_value make_password normalize_username normalize_email users data in
  all_admins_of users' = all_admins_of users /\
  match response with
  | Some r =>
      (status_code r = 201%Z /\
       exists row, users' = users ++ [row] /\ is_active row = true /\
                   is_superuser row = false /\ is_staff row = false)
      \/ (status_code r = 409%Z /\ users' = users)
  | None => users' = users /\
            exists vd, to_internal_value users data = inr vd /\ su_password vd = None
  end.
Proof.
  unfold signup. destruct (to_internal_value users data) as [errs|vd] eqn:Hv.
  - split; [reflexivity|]. right. split; reflexivity.
  - destruct (validate users vd) as [|detail|] eqn:Hval.
    + destruct (create make_password normalize_username normalize_email users vd) as [row|] eqn:Hc.
      * apply create_shape in Hc as (u & e & pw & _ & _ & _ & ->).
        split; [apply all_admins_of_app_nonadmin; reflexivity|].
        left. split; [reflexivity|]. eexists. repeat split.
      * split; [reflexivity|]. right. split; reflexivity.
    + split; [reflexivity|]. right. split; reflexivity.
    + split; [reflexivity|]. split; [reflexivity|]. exists vd. split; [reflexivity|].
      unfold validate in Hval. cbv zeta in Hval.
      destruct (List.existsb (fun r : UserRow => bool_decide (username (row_user r) = su_username vd)) users); [discriminate|].
      destruct (List.existsb (fun r : UserRow => bool_decide (email (row_user r) = su_email vd)) users); [discriminate|].
      destruct (su_password vd) as [pw|]; [|reflexivity].
      destruct (String.length pw <? 4)%nat; discriminate.
Qed.

(** X22: [validate] checks the username first, then the email, then the
    password length. A taken username is reported whatever the email and the
    password, and each of the three errors is answered 409 with the table
    unchanged. *)
Theorem signup_check_order (users : list UserRow) (data vd : SignupData) :
  to_internal_value users data = inr vd ->
  let conflict detail := (Some (mkResponse 409 (JsonValue (errors_json detail))), users) in
  let response := signup to_internal_value make_password normalize_username normalize_email users data in
  ((exists r, In r users /\ username (row_user r) = su_username vd) ->
     response = conflict [("username", ["This username is already taken."])]) /\
  ((forall r, In r users -> username (row_user r) <> su_username vd) ->
   (exists r, In r users /\ email (row_user r) = su_email vd) ->
     response = conflict [("email", ["This email is already registered."])]) /\
  (forall pw, (forall r, In r users -> username (row_user r) <> su_username vd) ->
   (forall r, In r users -> email (row_user r) <> su_email vd) ->
   su_password vd = Some pw -> (String.length pw < 4)%nat ->
     response = conflict [("password", ["Password should have a minimum of 4 characters."])]).
Proof.
  intros Hv. cbv zeta. unfold signup. rewrite Hv. unfold validate. cbv zeta.
  split; [|split].
  - intros (r & Hr & Hu).
    rewrite (existsb_true_of _ _ r Hr) by (apply bool_decide_eq_true_2; exact Hu). reflexivity.
  - intros Hfresh (r & Hr & He).
    rewrite (existsb_false_of (fun r : UserRow => bool_decide (username (row_user r) = su_username vd)) users)
      by (intros r' Hr'; apply bool_decide_eq_false_2; exact (Hfresh r' Hr')).
    rewrite (existsb_true_of _ _ r Hr) by (apply bool_decide_eq_true_2; exact He). reflexivity.
  - intros pw Hfu Hfe Hpw Hlen.
    rewrite (existsb_false_of (fun r : UserRow => bool_decide (username (row_user r) = su_username vd)) users)
      by (intros r' Hr'; apply bool_decide_eq_false_2; exact (Hfu r' Hr')).
    rewrite (existsb_false_of (fun r : UserRow => bool_decide (email (row_user r) = su_email vd)) users)
      by (intros r' Hr'; apply bool_decide_eq_false_2; exact (Hfe r' Hr')).
    rewrite Hpw. rewrite (proj2 (Nat.ltb_lt _ _) Hlen). reflexivity.
Qed.

(** X23: after a signup answered 201, [login] with the validated username and
    password answers 200, provided the stored hash accepts the password and
    normalizing the username leaves it unchanged. *)
Theorem signup_then_login (users : list UserRow) (data vd : SignupData) (u pw : string)
  (r : Response) (users' : list UserRow) (tokens : gmap string string) :
  to_internal_value users data = inr vd -> su_username vd = Some u -> su_password vd = Some pw ->
  normalize_username u = u -> check_password (make_password pw) pw = true ->
  signup to_internal_value make_password normalize_username normalize_email users data
    = (Some r, users') ->
  status_code r = 201%Z ->
  status_code (fst (login check_password new_token_key users' tokens (Some u) (Some pw))) = 200%Z.
Proof.
  intros Hv Hu Hpw Hnorm Hcheck. unfold signup. rewrite Hv.
  destruct (validate users vd) as [|detail|] eqn:Hval;
    [|intros Hs; injection Hs as <- _; cbn; discriminate|discriminate].
  destruct (create make_password normalize_username normalize_email users vd) as [row|] eqn:Hc;
    [|intros Hs; injection Hs as <- _; cbn; discriminate].
  intros Hs _. injection Hs as _ <-.
  apply create_shape in Hc as (u' & e & pw' & Hu' & _ & Hpw' & ->).
  rewrite Hu in Hu'. injection Hu' as <-. rewrite Hpw in Hpw'. injection Hpw' as <-.
  destruct (validate_validated _ _ Hval) as (Hfresh & _ & _).
  assert (Hf : find_user (users ++ [mkUserRow (mkUser (Some (normalize_email e)) (Some (normalize_username u)))
                                      (make_password pw) true false false]) u =
               Some (mkUserRow (mkUser (Some (normalize_email e)) (Some (normalize_username u)))
                               (make_password pw) true false false)).
  { apply find_user_app_fresh; [|cbn; rewrite Hnorm; reflexivity].
    intros r' Hr'. rewrite <- Hu. exact (Hfresh r' Hr'). }
  unfold login, authenticate. rewrite Hf. cbn [password_hash is_active]. rewrite Hcheck. cbn.
  destruct (tokens !! u); reflexivity.
Qed.

(** X24: a user with no token who logs in gets the token [new_token_key];
    logging out deletes it, which gives back the token table as it was before
    the login. *)
Theorem login_then_logout (users : list UserRow) (tokens : gmap string string) (u pw : string)
  (r : UserRow) :
  authenticate check_password users (Some u) (Some pw) = Some r -> tokens !! u = None ->
  login check_password new_token_key users tokens (Some u) (Some pw) =
    (mkResponse 200 (JsonBody [("token", new_token_key); ("username", u)]),
     <[u := new_token_key]> tokens) /\
  exists out, logout (row_user r) (<[u := new_token_key]> tokens) = (Some out, tokens) /\
              status_code out = 200%Z.
Proof.
  intros Ha Ht. destruct (authenticate_some _ _ _ _ Ha) as [_ Hn]. split.
  - unfold login. rewrite Ha, Ht. reflexivity.
  - unfold logout. rewrite Hn, lookup_insert_eq, delete_insert_id by exact Ht.
    eexists. split; reflexivity.
Qed.

(** X25: [logout] deletes the user's token and answers 200; logging in again
    issues [new_token_key], not the deleted key. *)
Theorem logout_then_login (users : list UserRow) (tokens : gmap string string) (u pw key : string)
  (r : UserRow) :
  authenticate check_password users (Some u) (Some pw) = Some r -> tokens !! u = Some key ->
  (exists out, logout (row_user r) tokens = (Some out, delete u tokens) /\ status_code out = 200%Z) /\
  login check_password new_token_key users (delete u tokens) (Some u) (Some pw) =
    (mkResponse 200 (JsonBody [("token", new_token_key); ("username", u)]),
     <[u := new_token_key]> (delete u tokens)).
Proof.
  intros Ha Ht. destruct (authenticate_some _ _ _ _ Ha) as [_ Hn]. split.
  - unfold logout. rewrite Hn, Ht. eexists. split; reflexivity.
  - unfold login. rewrite Ha, lookup_delete_eq. reflexivity.
Qed.

End AccountProofs.

Section ListingProofs.
Context `{PyRuntime}.
Local Open Scope list_scope.

Variable order_by : string -> list Product -> option (list Product).
Variable page_url : Z -> string.
Variable first_page_url : string.






Lemma all_products_in (cat : gmap string Product) (p : Product) :
  In p (all_products cat) -> exists k, cat !! k = Some p.
Proof.
  unfold all_products. intros Hp. apply in_map_iff in Hp as ([k p'] & <- & Hkp).
  exists k. apply elem_of_map_to_list. apply list_elem_of_In. exact Hkp.
Qed.












End ListingProofs.

Section FilterOptionsProofs.
Context `{PyRuntime}.

Lemma distinct_aux_spec (seen xs : list (option string)) :
  NoDup (distinct_aux seen xs) /\
  forall v, In v (distinct_aux seen xs) <-> In v xs /\ ~ In v seen.
Proof.
  revert seen. induction xs as [|x xs IH]; intros seen; cbn.
  - split; [constructor|]. intros v. split; [intros []|intros [[] _]].
  - destruct (List.existsb (fun y => bool_decide (y = x)) seen) eqn:Hx.
    + destruct (IH seen) as [Hnd Hin]. split; [exact Hnd|]. intros v. rewrite Hin.
      apply List.existsb_exists in Hx as (y & Hy & Hb). apply bool_decide_eq_true in Hb. subst y.
      split; [intros [Hv Hs]; auto|].
      intros [[<-|Hv] Hs]; [contradiction|auto].
    + destruct (IH (x :: seen)) as [Hnd Hin]. split.
      * constructor; [|exact Hnd]. intros Hx'. apply list_elem_of_In, Hin in Hx' as [_ Hs].
        apply Hs. left. reflexivity.
      * intros v. cbn. rewrite Hin. split.
        -- intros [<-|[Hv Hs]]; [split; [left; reflexivity|]|split; [right; exact Hv|intros Hs'; apply Hs; right; exact Hs']].
           intros Hs. assert (Hb : List.existsb (fun y => bool_decide (y = x)) seen = true).
           { apply List.existsb_exists. exists x. split; [exact Hs|]. apply bool_decide_eq_true_2. reflexivity. }
           congruence.
        -- intros [[<-|Hv] Hs]; [left; reflexivity|].
           destruct (decide (v = x)) as [->|Hne]; [left; reflexivity|].
           right. split; [exact Hv|]. intros [->|Hs']; [congruence|contradiction].
Qed.

Lemma values_distinct_spec (field : Product -> option string) (cat : gmap string Product) :
  NoDup (values_distinct field cat) /\
  forall v, In v (values_distinct field cat) <-> exists k p, cat !! k = Some p /\ field p = v.
Proof.
  unfold values_distinct. destruct (distinct_aux_spec [] (map field (all_products cat))) as [Hnd Hin].
  split; [exact Hnd|]. intros v. rewrite Hin. split.
  - intros [Hv _]. apply in_map_iff in Hv as (p & <- & Hp).
    apply all_products_in in Hp as [k Hk]. eauto.
  - intros (k & p & Hk & <-). split; [|intros []].
    apply in_map. unfold all_products. apply in_map_iff. exists (k, p). split; [reflexivity|].
    apply list_elem_of_In. apply elem_of_map_to_list. exact Hk.
Qed.

(** X26: each of the three lists of [filter_options] has no duplicates and
    holds exactly the values of its column in the table. *)
Theorem filter_options_distinct (cat : gmap string Product) :
  exists conditions genders brands,
    filter_options cat = mkResponse 200 (JsonValue (JObj [
      ("conditions", JList (map json_of_opt conditions));
      ("genders", JList (map json_of_opt genders));
      ("brands", JList (map json_of_opt brands))])) /\
    Forall (fun '(field, values) =>
      NoDup values /\
      forall v, In v values <-> exists k p, cat !! k = Some p /\ field p = v)
      [(condition, conditions); (gender, genders); (brand, brands)].
Proof.
  exists (values_distinct condition cat), (values_distinct gender cat), (values_distinct brand cat).
  split; [reflexivity|].
  repeat constructor; apply values_distinct_spec.
Qed.

End FilterOptionsProofs.

(** ** Witnesses and counterexamples, in the runtime [DecimalRuntime]. *)

Definition empty_batch : Batch := mkBatch [] [] [] ∅.

(** A record already in the table, with only its id set. *)
Definition stored_product (pid : string) : Product :=
  mkProduct (Some pid) None None None None None None None None None None None None None
    None None None None None None None 0 false None 0 None None None None None None None
    None None None None None None None None None None None None.

Lemma handle_uploaded_file_error_isolation_witness :
  create_product_instance (Elem "item" None [] [leaf (g "id") "5"]) ∅ = Raise IntegrityError /\
  process_item empty_batch (Elem "item" None [] [leaf (g "id") "5"]) = mkBatch [] ["5"] [] ∅ /\
  process_item empty_batch (Elem "item" None [] []) = empty_batch.
Proof.
  pose proof (@handle_uploaded_file_error_isolation DecimalRuntime None ∅)
    as [_ [_ [Hfail Hnoid]]].
  split; [reflexivity|]. split.
  - apply (Hfail empty_batch _ "5" IntegrityError); [reflexivity | discriminate | reflexivity..].
  - apply (Hnoid empty_batch _ IntegrityError); reflexivity.
Defined.


Lemma existing_id_skipped_unchanged_witness :
  process_item (mkBatch [] [] [] {[ "1" := stored_product "1" ]}) (sample_item "1") =
  mkBatch ["1"] [] [] {[ "1" := stored_product "1" ]}.
Proof.
  pose proof (@existing_id_skipped_unchanged DecimalRuntime) as [Hstep _].
  rewrite (Hstep (mkBatch [] [] [] {[ "1" := stored_product "1" ]}) (sample_item "1") "1");
    [reflexivity | reflexivity | discriminate | reflexivity].
Defined.

(** C8 fails as stated: a node whose text is the empty string gives [""],
    not the default. *)
Lemma get_text_empty_text_cex :
  get_text (Some (Elem "t" (Some "") [] [])) (Some "default") = Some "" /\
  Some "" <> Some "default".
Proof. split; [reflexivity | discriminate]. Qed.

Lemma get_text_spec_witness :
  get_text (Some (Elem "t" (Some "") [] [])) (Some "default") = Some "" /\
  get_text (Some (Elem "t" None [] [])) (Some "default") = Some "default".
Proof.
  destruct get_text_spec as [Htext [Hnone _]]. split.
  - apply Htext. reflexivity.
  - apply Hnone. reflexivity.
Defined.

Lemma get_float_text_whitespace_index_error_witness :
  @get_float_text DecimalRuntime (Some (leaf (g "price") " ")) None = Raise IndexError.
Proof.
  apply (@get_float_text_whitespace_index_error DecimalRuntime _ " ");
    [reflexivity | discriminate | repeat constructor].
Defined.

Definition sample_user : CustomUser := mkUser (Some "uploader@example.com") (Some "uploader").
Definition sample_admins : list CustomUser :=
  [mkUser None (Some "admin1"); mkUser (Some "admin2@example.com") (Some "admin2")].

Lemma notify_fan_out_witness :
  notify_admins_for_products (fun _ => true) sample_user "feed.xml" [] ["1"] ["2"]
    sample_admins [] = ([], None) /\
  length (fst (notify_admins_for_products (fun _ => true) sample_user "feed.xml"
    [stored_product "3"; stored_product "4"] ["1"] ["2"] sample_admins [])) = 4%nat /\
  length (fst (notify_failure_to_admins (fun _ => true) sample_user "feed.xml" "boom"
    sample_admins [])) = 2%nat.
Proof.
  destruct (@notify_fan_out DecimalRuntime (fun _ => true) sample_user "feed.xml" "boom" []
              ["1"] ["2"] sample_admins []) as [H0 [_ Hf]].
  destruct (@notify_fan_out DecimalRuntime (fun _ => true) sample_user "feed.xml" "boom"
              [stored_product "3"; stored_product "4"] ["1"] ["2"] sample_admins [])
    as [_ [Hs _]].
  split; [apply H0; reflexivity|]. split.
  - destruct (Hs (fun _ => eq_refl)) as (sent & -> & _ & Hlen). exact Hlen.
  - destruct (Hf (fun _ => eq_refl)) as (sent & -> & _ & Hlen). exact Hlen.
Defined.




Lemma handle_uploaded_file_document_order_witness :
  flat_map created_of (outcomes ∅ (findall_channel_item
      (feed [sample_item "1"; Elem "item" None [] [leaf (g "id") "5"]; sample_item "2"])))
  = product_instances_list (fold_left process_item
      (findall_channel_item (feed [sample_item "1"; Elem "item" None [] [leaf (g "id") "5"];
                                   sample_item "2"])) empty_batch).
Proof.
  destruct (@handle_uploaded_file_document_order DecimalRuntime
              (Some (feed [sample_item "1"; Elem "item" None [] [leaf (g "id") "5"]; sample_item "2"]))
              ∅ (feed [sample_item "1"; Elem "item" None [] [leaf (g "id") "5"]; sample_item "2"])
              _ _ _ _ eq_refl eq_refl) as (_ & _ & _ & Hcr).
  exact (eq_sym Hcr).
Defined.

(** C9 at the failing input: two admins, the broker refusing the first
    admin's message. The success dispatcher raises and the second admin
    gets nothing. The failure dispatcher, at the same input, still
    enqueues the second admin's message. *)
Definition refuse_missing_email `{PyRuntime} (d : notification_data) : bool :=
  match d with
  | NotifySuccess _ _ (Some _) _ _ _ _ => true
  | NotifyFailure _ _ (Some _) _ _ => true
  | _ => false
  end.

Theorem notify_admins_for_products_stops_at_refused_send :
  notify_admins_for_products refuse_missing_email sample_user "feed.xml"
    [stored_product "3"] [] [] sample_admins [] = ([], Some BrokerError) /\
  notify_failure_to_admins refuse_missing_email sample_user "feed.xml" "boom" sample_admins [] =
    ([NotifyFailure (Some "uploader@example.com") (Some "uploader") (Some "admin2@example.com")
        "feed.xml" "boom"], None).
Proof. split; reflexivity. Qed.


(** Witnesses of the properties above, in the runtime [DecimalRuntime]. *)
Definition sample_rows : list UserRow :=
  [mkUserRow (mkUser (Some "root@example.com") (Some "root")) "hash1" true true true;
   mkUserRow sample_user "hash2" true false false;
   mkUserRow (mkUser (Some "former@example.com") (Some "former")) "hash3" false false false].

(** A broker that refuses every success payload. *)
Definition refuse_success `{PyRuntime} (d : notification_data) : bool :=
  match d with NotifySuccess _ _ _ _ _ _ _ => false | NotifyFailure _ _ _ _ _ => true end.


Lemma upload_products_parse_error_witness :
  upload_products (fun _ => true) (fun _ => "feed.xml") (fun _ => "error")
    (Some (None : option element)) sample_user sample_rows ∅ [] =
  (mkResponse 400 (JsonBody [("error", "error")]), ∅,
   [NotifyFailure (Some "uploader@example.com") (Some "uploader") (Some "root@example.com")
      "feed.xml" "error"]).
Proof.
  apply (@upload_products_parse_error DecimalRuntime); [discriminate | reflexivity].
Defined.

Lemma upload_products_created_witness :
  status_code (fst (fst (upload_products (fun _ => true) (fun _ => "feed.xml") (fun _ => "error")
    (Some (Some (feed [sample_item "1"]))) sample_user sample_rows ∅ []))) = 201%Z.
Proof.
  destruct (@upload_products_created DecimalRuntime (fun _ => true) (fun _ => "feed.xml")
              (fun _ => "error") (Some (feed [sample_item "1"])) sample_user sample_rows ∅ []
              _ _ _ _ ltac:(discriminate) eq_refl) as [Hiff _].
  apply Hiff. apply List.Forall_forall. intros; reflexivity.
Defined.

Lemma upload_products_notify_error_keeps_records_witness :
  status_code (fst (fst (upload_products refuse_success (fun _ => "feed.xml") (fun _ => "error")
    (Some (Some (feed [sample_item "1"]))) sample_user sample_rows ∅ []))) = 400%Z /\
  is_Some (snd (fst (upload_products refuse_success (fun _ => "feed.xml") (fun _ => "error")
    (Some (Some (feed [sample_item "1"]))) sample_user sample_rows ∅ [])) !! "1").
Proof.
  destruct (@upload_products_notify_error_keeps_records DecimalRuntime refuse_success
              (fun _ => "feed.xml") (fun _ => "error") (Some (feed [sample_item "1"]))
              sample_user sample_rows ∅ [] _ _ _ _ _ ltac:(discriminate) eq_refl
              ltac:(left; reflexivity) eq_refl) as (sent & rest & _ & _ & Heq).
  split; [exact (f_equal (fun r => status_code (fst (fst r))) Heq)|].
  eexists. eapply eq_trans; [exact (f_equal (fun r => snd (fst r) !! "1") Heq)|reflexivity].
Defined.

Lemma upload_products_only_admins_witness :
  In (NotifyFailure (Some "uploader@example.com") (Some "uploader") (Some "root@example.com")
        "feed.xml" "error") [] \/
  exists r, In r sample_rows /\ is_superuser r = true /\ is_staff r = true /\
            payload_admin_email (NotifyFailure (Some "uploader@example.com") (Some "uploader")
              (Some "root@example.com") "feed.xml" "error") = email (row_user r).
Proof.
  apply (@upload_products_only_admins DecimalRuntime (fun _ => true) (fun _ => "feed.xml")
           (fun _ => "error") (Some (None : option element)) sample_user sample_rows ∅ []).
  left. reflexivity.
Defined.

Lemma handle_uploaded_file_table_growth_witness :
  exists ex pr cr cat', run_feed [sample_item "1"; sample_item "2"] ∅ = Ok (ex, pr, cr, cat') /\
                        NoDup (map product_id cr).
Proof.
  do 4 eexists. split; [reflexivity|].
  exact (proj1 (proj2 (@handle_uploaded_file_table_growth DecimalRuntime
           (Some (feed [sample_item "1"; sample_item "2"])) ∅ _ _ _ _ eq_refl))).
Defined.

Lemma product_detail_after_upload_witness :
  exists ex pr cr cat', run_feed [sample_item "1"; sample_item "1"] ∅ = Ok (ex, pr, cr, cat') /\
                        status_code (product_detail (fun _ => "error") cat' "1") = 200%Z.
Proof.
  do 4 eexists. split; [reflexivity|].
  destruct (proj2 (@product_detail_after_upload DecimalRuntime (fun _ => "error")
           (Some (feed [sample_item "1"; sample_item "1"])) ∅ _ _ _ _ eq_refl) "1")
    as [H|H]; [left; reflexivity|exact H|].
  exact eq_refl.
Defined.

Lemma handle_uploaded_file_counts_witness :
  exists ex pr cr cat',
    run_feed [sample_item "1"; Elem "item" None [] [leaf (g "id") "5"]; Elem "item" None [] []] ∅
      = Ok (ex, pr, cr, cat') /\
    (length ex + length pr + length cr <= 3)%nat.
Proof.
  do 4 eexists. split; [reflexivity|].
  exact (proj1 (@handle_uploaded_file_counts DecimalRuntime
           (Some (feed [sample_item "1"; Elem "item" None [] [leaf (g "id") "5"];
                        Elem "item" None [] []])) ∅
           (feed [sample_item "1"; Elem "item" None [] [leaf (g "id") "5"]; Elem "item" None [] []])
           _ _ _ _ eq_refl eq_refl)).
Defined.

Lemma missing_required_field_not_created_witness :
  exists e, @create_product_instance DecimalRuntime (Elem "item" None [] [leaf (g "id") "7"]) ∅
            = Raise e.
Proof.
  apply (proj1 (@missing_required_field_not_created DecimalRuntime
           (Elem "item" None [] [leaf (g "id") "7"]) "title" ltac:(left; reflexivity)
           eq_refl)).
Defined.

Lemma build_product_adult_witness :
  exists p, build_product (add_child (sample_item "1") (leaf (g "adult") "YES")) = Ok p /\
            adult p = true.
Proof.
  eexists. split; [reflexivity|].
  apply (proj2 (@build_product_adult DecimalRuntime
           (add_child (sample_item "1") (leaf (g "adult") "YES")) _ eq_refl)).
  exists "YES". split; reflexivity.
Defined.

Lemma build_product_no_applink_witness :
  exists p, build_product (sample_item "1") = Ok p /\ iphone_app_name p = None.
Proof.
  eexists. split; [reflexivity|].
  refine (proj1 (@build_product_no_applink DecimalRuntime (sample_item "1") _ _ eq_refl)).
  repeat (apply List.Forall_cons; [discriminate|]). apply List.Forall_nil.
Defined.

Lemma login_inactive_user_witness :
  login (fun _ _ => true) "key1" sample_rows ∅ (Some "former") (Some "pw") =
  (mkResponse 400 (JsonBody [("error", "Invalid Password.")]), ∅).
Proof.
  apply (@login_inactive_user DecimalRuntime (fun _ _ => true) "key1" sample_rows ∅ "former" (Some "pw")
           (mkUserRow (mkUser (Some "former@example.com") (Some "former")) "hash3" false false false));
    reflexivity.
Defined.

Lemma upload_products_parse_error_emails_witness :
  exists sent,
    snd (upload_products (fun _ => true) (fun _ => "feed.xml") (fun _ => "error")
           (Some (None : option element)) sample_user sample_rows ∅ []) = ([] ++ sent)%list /\
    map (fun d => fst (send_notification (fun _ => []) d)) sent =
    [("Product Upload Failed", Some "root@example.com")].
Proof.
  destruct (@upload_products_parse_error_emails DecimalRuntime (fun _ => []) (fun _ => "feed.xml")
              (fun _ => "error") None sample_user sample_rows ∅ [] ltac:(discriminate) eq_refl)
    as (sent & H1 & H2).
  exists sent. split; [exact H1|]. rewrite H2. reflexivity.
Defined.

(** Field validation that accepts the request body as it is. *)
Definition accept_fields (users : list UserRow) (data : SignupData)
  : list (string * list string) + SignupData :=
  inr data.

(** A password hasher and its check: the hash of ["1"] is ["hash1"]. *)
Definition plain_hash (pw : string) : string := "hash" ++ pw.
Definition check_plain (hash pw : string) : bool := String.eqb hash (plain_hash pw).

Definition root_row : UserRow :=
  mkUserRow (mkUser (Some "root@example.com") (Some "root")) "hash1" true true true.

Definition taken_username : SignupData :=
  mkSignupData (Some "root") (Some "new@example.com") (Some "secret") None None.
Definition new_signup : SignupData :=
  mkSignupData (Some "alice") (Some "alice@example.com") (Some "secret") None None.






Lemma signup_check_order_witness :
  signup accept_fields plain_hash (fun u => u) (fun e => e) sample_rows taken_username =
  (Some (mkResponse 409 (JsonValue (errors_json [("username", ["This username is already taken."])]))),
   sample_rows).
Proof.
  apply (proj1 (@signup_check_order DecimalRuntime accept_fields plain_hash (fun u => u) (fun e => e)
                  sample_rows taken_username taken_username eq_refl)).
  exists root_row. split; [left; reflexivity|reflexivity].
Defined.

Lemma signup_then_login_witness :
  status_code (fst (login check_plain "tok"
    (snd (signup accept_fields plain_hash (fun u => u) (fun e => e) sample_rows new_signup))
    ∅ (Some "alice") (Some "secret"))) = 200%Z.
Proof.
  eapply (@signup_then_login DecimalRuntime accept_fields plain_hash (fun u => u) (fun e => e)
            check_plain "tok" sample_rows new_signup new_signup "alice" "secret");
    reflexivity.
Defined.

Lemma login_then_logout_witness :
  snd (logout (row_user root_row)
         (snd (login check_plain "tok" sample_rows ∅ (Some "root") (Some "1")))) = ∅.
Proof.
  destruct (@login_then_logout DecimalRuntime check_plain "tok" sample_rows ∅ "root" "1" root_row
              eq_refl (lookup_empty _)) as [Hl (out & Hout & _)].
  rewrite Hl. cbn [snd]. rewrite Hout. reflexivity.
Defined.

Lemma logout_then_login_witness :
  login check_plain "fresh" sample_rows (snd (logout (row_user root_row) (<["root" := "old"]> ∅)))
    (Some "root") (Some "1") =
  (mkResponse 200 (JsonBody [("token", "fresh"); ("username", "root")]),
   <["root" := "fresh"]> (delete "root" (<["root" := "old"]> ∅))).
Proof.
  destruct (@logout_then_login DecimalRuntime check_plain "fresh" sample_rows (<["root" := "old"]> ∅)
              "root" "1" "old" root_row eq_refl ltac:(apply lookup_insert_eq)) as [(out & Hout & _) Hl].
  rewrite Hout. exact Hl.
Defined.




